(** * Permission aggregation, authorization gate, cache facade and token
    resolver of the [lungfung_sso] package, as a shallow embedding.

    Sources embedded:
    - [lungfung_sso/permissions.py]: [Module], [Permission.format_permission],
      [SSOPermission._get_user_permissions], [_get_parent_module_permissions],
      [_collect_module_permissions], [has_permission], [check_permission],
      [ModulePermissionRequiredMixin.check_permissions] and the decorator
      [module_permission_required];
    - [lungfung_sso/cache.py]: [_get_cache], the key functions, the
      permission / token cache readers and writers, the invalidation
      functions and [cache_user_data];
    - [lungfung_sso/authentication.py]: [SSOAuthentication.authenticate],
      [_get_token_from_request], [_get_user_from_token] and
      [_load_user_permissions];
    - [lungfung_sso/models.py]: [User.__init__], [has_perm],
      [has_module_perms], [get_all_permissions], [set_permissions],
      [get_full_name] and [get_profile];
    - [lungfung_sso/exceptions.py]: the messages and codes of
      [SSOAuthenticationError], [TokenError] and [TokenExpiredError].

    Python exceptions are values of [exn]; a computation that may raise
    returns a [result]; code that touches the shared cache or calls the
    remote service runs in the state-and-exception monad [M]. *)

From Stdlib Require Import String Ascii List Bool ZArith Lia.
From Stdlib Require Import Numbers.DecimalString Permutation.
Import ListNotations.
Open Scope string_scope.
Set Warnings "-register-all".

(* ------------------------------------------------------------------ *)
(** ** Python values *)

(** A JSON document as [response.json()] or the cache returns it.
    Numbers are integers (JSON floats are not modelled); a JSON object is
    the list of its items, keys distinct as in a Python dict. *)
Inductive json : Type :=
| JNull
| JBool (b : bool)
| JNum (z : Z)
| JStr (s : string)
| JArr (l : list json)
| JObj (kvs : list (string * json)).

(** The Python exceptions the embedded code can raise or catch. *)
Inductive exn : Type :=
| NameError
| AttributeError
| KeyError
| TypeError
| JSONDecodeError            (* requests.exceptions.JSONDecodeError *)
| ConnectionError            (* requests.RequestException raised by the transport *)
| TokenError
| TokenExpiredError
| PermissionDeniedError
| SSOServiceUnavailableError.

(** [except requests.RequestException]: the transport errors and, since
    requests 2.27, the JSON decoding error of [Response.json()]. *)
Definition is_request_exception (e : exn) : bool :=
  match e with
  | ConnectionError | JSONDecodeError => true
  | _ => false
  end.

Inductive result (A : Type) : Type :=
| Ok (a : A)
| Exc (e : exn).
Arguments Ok {A} a.
Arguments Exc {A} e.

Definition rbind {A B} (m : result A) (k : A -> result B) : result B :=
  match m with
  | Ok a => k a
  | Exc e => Exc e
  end.

Notation "x <-? m ;; k" := (rbind m (fun x => k))
  (at level 61, m at next level, right associativity).

(** Python truthiness of a JSON value. *)
Definition truthy (j : json) : bool :=
  match j with
  | JNull => false
  | JBool b => b
  | JNum z => negb (Z.eqb z 0)
  | JStr s => negb (String.eqb s "")
  | JArr l => negb (List.length l =? 0)%nat
  | JObj kvs => negb (List.length kvs =? 0)%nat
  end.

(** Association-list lookup (a dict's item lookup). *)
Fixpoint assoc {A} (k : string) (kvs : list (string * A)) : option A :=
  match kvs with
  | [] => None
  | (k', v) :: r => if String.eqb k k' then Some v else assoc k r
  end.

(** [d.get(k, default)]: only a dict has [.get]. *)
Definition dict_get (d : json) (k : string) (default : json) : result json :=
  match d with
  | JObj kvs => match assoc k kvs with Some v => Ok v | None => Ok default end
  | _ => Exc AttributeError
  end.

(** [d[k]]: [KeyError] on a dict without [k], [TypeError] for a list
    indexed by a string and for non-subscriptable values. *)
Definition getitem (d : json) (k : string) : result json :=
  match d with
  | JObj kvs => match assoc k kvs with Some v => Ok v | None => Exc KeyError end
  | _ => Exc TypeError
  end.

(** [for x in j]: a list yields its items, a dict its keys, a string its
    characters; other values are not iterable. *)
Fixpoint chars (s : string) : list json :=
  match s with
  | EmptyString => []
  | String c r => JStr (String c EmptyString) :: chars r
  end.

Definition py_iter (j : json) : result (list json) :=
  match j with
  | JArr l => Ok l
  | JObj kvs => Ok (map (fun kv => JStr (fst kv)) kvs)
  | JStr s => Ok (chars s)
  | _ => Exc TypeError
  end.

(** [j == s] for a Python string [s]. *)
Definition json_eq_str (j : json) (s : string) : bool :=
  match j with
  | JStr t => String.eqb t s
  | _ => false
  end.

(** [str(z)] for an integer. *)
Definition Z_to_string (z : Z) : string := NilZero.string_of_int (Z.to_int z).

(** [str(j)] as an f-string renders it: a string as itself, other values
    by their [repr]. Escape sequences inside a string's [repr] are not
    modelled (a string is rendered between single quotes). *)
Fixpoint py_repr (j : json) : string :=
  match j with
  | JNull => "None"
  | JBool true => "True"
  | JBool false => "False"
  | JNum z => Z_to_string z
  | JStr s => "'" ++ s ++ "'"
  | JArr l =>
      "[" ++ (fix go (l : list json) : string :=
                match l with
                | [] => ""
                | [x] => py_repr x
                | x :: r => py_repr x ++ ", " ++ go r
                end) l ++ "]"
  | JObj kvs =>
      "{" ++ (fix go (kvs : list (string * json)) : string :=
                match kvs with
                | [] => ""
                | [(k, v)] => "'" ++ k ++ "': " ++ py_repr v
                | (k, v) :: r => "'" ++ k ++ "': " ++ py_repr v ++ ", " ++ go r
                end) kvs ++ "}"
  end.

Definition py_str (j : json) : string :=
  match j with
  | JStr s => s
  | _ => py_repr j
  end.

(** [s.endswith(suf)]. *)
Fixpoint endswith (s suf : string) : bool :=
  String.eqb s suf ||
  match s with
  | EmptyString => false
  | String _ r => endswith r suf
  end.

(** [pat in s] for strings. *)
Fixpoint str_contains (s pat : string) : bool :=
  String.prefix pat s ||
  match s with
  | EmptyString => false
  | String _ r => str_contains r pat
  end.

(** [s.startswith(p)]. *)
Definition startswith (s p : string) : bool := String.prefix p s.

(* ------------------------------------------------------------------ *)
(** ** Python sets of permission strings *)

(** A hashable set element. JSON booleans hash and compare as the integers
    0 and 1, as in Python ([True == 1]); lists and dicts are unhashable. *)
Inductive hval : Type :=
| HNone
| HInt (z : Z)
| HStr (s : string).

Definition hval_eq_dec (x y : hval) : {x = y} + {x <> y}.
Proof. decide equality; [apply Z.eq_dec | apply string_dec]. Defined.

Definition to_hval (j : json) : result hval :=
  match j with
  | JNull => Ok HNone
  | JBool b => Ok (HInt (if b then 1 else 0)%Z)
  | JNum z => Ok (HInt z)
  | JStr s => Ok (HStr s)
  | JArr _ | JObj _ => Exc TypeError
  end.

(** A Python [set] as the duplicate-free list of its elements. *)
Definition pyset := list hval.

Definition set_mem (x : hval) (s : pyset) : bool :=
  if in_dec hval_eq_dec x s then true else false.

(** [s.add(x)]. *)
Definition set_add (x : hval) (s : pyset) : pyset :=
  if set_mem x s then s else (s ++ [x])%list.

(** [s.update(t)]. *)
Definition set_update (s t : pyset) : pyset := fold_left (fun acc x => set_add x acc) t s.

(* ------------------------------------------------------------------ *)
(** ** Settings read by [Module] and [Permission] *)

(** The Django settings the permission classes read; [None] is a key that
    is not set, so the getters below apply the source's defaults. *)
Record sso_settings : Type := {
  SSO_MODULES_PARENT_MODULE : option string;
  SSO_MODULES_CHILD_MODULES : option (list (string * string));
  SSO_PERMISSIONS_PARENT_PERMISSIONS : option (list (string * string));
  SSO_PERMISSIONS_CHILD_PERMISSION_TYPES : option (list (string * string))
}.

Section Config.
Variable cfg : sso_settings.

(** [Module.get_parent_module]. *)
Definition get_parent_module : string :=
  match SSO_MODULES_PARENT_MODULE cfg with Some m => m | None => "DEFAULT" end.

(** [Module.get_child_modules]: the values of [CHILD_MODULES]. *)
Definition get_child_modules : list string :=
  match SSO_MODULES_CHILD_MODULES cfg with Some d => map snd d | None => [] end.

(** [Permission.get_parent_permissions]. *)
Definition get_parent_permissions : list (string * string) :=
  match SSO_PERMISSIONS_PARENT_PERMISSIONS cfg with
  | Some d => d
  | None => [("VIEW_SYSTEM", "view_default_system");
             ("MANAGE_SYSTEM", "manage_default_system")]
  end.

(** [Permission.get_child_permission_types]. *)
Definition get_child_permission_types : list (string * string) :=
  match SSO_PERMISSIONS_CHILD_PERMISSION_TYPES cfg with
  | Some d => d
  | None => [("VIEW", "view"); ("ADD", "add"); ("CHANGE", "change"); ("DELETE", "delete")]
  end.

(** [dict.get(k, default)] on a settings dict of strings. *)
Definition sget (d : list (string * string)) (k default : string) : string :=
  match assoc k d with Some v => v | None => default end.

(** [Permission.format_permission(module, action)]. *)
Definition format_permission (module action : string) : string :=
  let parent_module := get_parent_module in
  if String.eqb module parent_module then action
  else if endswith action ("_" ++ module) || str_contains action ("_" ++ module ++ "_")
  then module ++ "." ++ action
  else module ++ "." ++ action ++ "_" ++ module.

End Config.

(* ------------------------------------------------------------------ *)
(** ** Permission aggregation ([SSOPermission]) *)

Section Aggregation.
Variable cfg : sso_settings.

(** The set comprehension [{perm['codename'] for perm in perms}], grown
    into [acc]. *)
Fixpoint codename_set (perms : list json) (acc : pyset) : result pyset :=
  match perms with
  | [] => Ok acc
  | perm :: r =>
      c <-? getitem perm "codename";;
      h <-? to_hval c;;
      codename_set r (set_add h acc)
  end.

(** The loop of [_get_parent_module_permissions]: the first entry whose
    [code] equals the parent module supplies the set, then [break]. *)
Fixpoint parent_loop (parent_module : string) (mods : list json) : result pyset :=
  match mods with
  | [] => Ok []
  | module_data :: r =>
      code <-? getitem module_data "code";;
      if json_eq_str code parent_module then
        ps <-? dict_get module_data "permissions" (JArr []);;
        l <-? py_iter ps;;
        codename_set l []
      else parent_loop parent_module r
  end.

(** [SSOPermission._get_parent_module_permissions(permissions_data)]. *)
Definition _get_parent_module_permissions (permissions_data : json) : result pyset :=
  let parent_module := get_parent_module cfg in
  ps <-? dict_get permissions_data "permissions" (JArr []);;
  mods <-? py_iter ps;;
  parent_loop parent_module mods.

(** [for module in Module.get_child_modules(): for perm_type in
    Permission.get_child_permission_types().values(): all.add(...)]. *)
Definition add_all_child_permissions (acc : pyset) : pyset :=
  fold_left (fun acc module =>
               fold_left (fun acc perm_type =>
                            set_add (HStr (format_permission cfg module perm_type)) acc)
                         (map snd (get_child_permission_types cfg)) acc)
            (get_child_modules cfg) acc.

(** [for module in Module.get_child_modules(): all.add(format(module, view_perm))]. *)
Definition add_child_view_permissions (view_perm : string) (acc : pyset) : pyset :=
  fold_left (fun acc module => set_add (HStr (format_permission cfg module view_perm)) acc)
            (get_child_modules cfg) acc.

(** [for perm in module_data.get('permissions', []):
       all.add(f"{module_code}.{perm['codename']}")]. *)
Fixpoint child_perms (module_code : json) (perms : list json) (acc : pyset) : result pyset :=
  match perms with
  | [] => Ok acc
  | perm :: r =>
      c <-? getitem perm "codename";;
      child_perms module_code r (set_add (HStr (py_str module_code ++ "." ++ py_str c)) acc)
  end.

(** The final loop of [_collect_module_permissions] over the entries. *)
Fixpoint child_loop (parent_module : string) (mods : list json) (acc : pyset) : result pyset :=
  match mods with
  | [] => Ok acc
  | module_data :: r =>
      module_code <-? getitem module_data "code";;
      if json_eq_str module_code parent_module then child_loop parent_module r acc
      else
        ps <-? dict_get module_data "permissions" (JArr []);;
        l <-? py_iter ps;;
        acc' <-? child_perms module_code l acc;;
        child_loop parent_module r acc'
  end.

(** [SSOPermission._collect_module_permissions(permissions_data)]. *)
Definition _collect_module_permissions (permissions_data : json) : result pyset :=
  let all_permissions : pyset := [] in
  parent_permissions <-? _get_parent_module_permissions permissions_data;;
  let all_permissions := set_update all_permissions parent_permissions in
  let parent_perms := get_parent_permissions cfg in
  let has_manage_system :=
    set_mem (HStr (sget parent_perms "MANAGE_SYSTEM" "manage_default_system")) parent_permissions in
  let has_view_system :=
    set_mem (HStr (sget parent_perms "VIEW_SYSTEM" "view_default_system")) parent_permissions in
  if has_manage_system then Ok (add_all_child_permissions all_permissions)
  else
    let all_permissions :=
      if has_view_system
      then add_child_view_permissions (sget (get_child_permission_types cfg) "VIEW" "view")
                                      all_permissions
      else all_permissions in
    let parent_module := get_parent_module cfg in
    ps <-? dict_get permissions_data "permissions" (JArr []);;
    mods <-? py_iter ps;;
    child_loop parent_module mods all_permissions.

End Aggregation.

(** The payload shape of the spec's RawPermissionPayload, as JSON. *)
Record module_entry : Type := { me_code : string; me_codenames : list string }.

Definition entry_json (e : module_entry) : json :=
  JObj [("code", JStr (me_code e));
        ("permissions", JArr (map (fun c => JObj [("codename", JStr c)]) (me_codenames e)))].

Definition payload_json (p : list module_entry) : json :=
  JObj [("permissions", JArr (map entry_json p))].

(** The settings of the scenario: parent [SYS], children [A] and [B], the
    default permission-type and parent-permission dicts. *)
Definition scenario_settings : sso_settings := {|
  SSO_MODULES_PARENT_MODULE := Some "SYS";
  SSO_MODULES_CHILD_MODULES := Some [("A", "A"); ("B", "B")];
  SSO_PERMISSIONS_PARENT_PERMISSIONS := None;
  SSO_PERMISSIONS_CHILD_PERMISSION_TYPES := None
|}.

Definition scenario_payload : json :=
  payload_json [{| me_code := "SYS"; me_codenames := ["manage_default_system"] |}].

(* ------------------------------------------------------------------ *)
(** ** Identities ([models.User]) *)

(** The attributes of a user object the package reads. A [User] built by
    [User.__init__] carries JSON values from the verification response;
    [u_is_authenticated] is the [is_authenticated] attribute. *)
Record identity : Type := {
  u_id : json;
  u_username : json;
  u_email : json;
  u_first_name : json;
  u_last_name : json;
  u_is_active : json;
  u_is_staff : json;
  u_is_superuser : json;
  u_modules : json;
  u_permissions : json;
  u_token : json;
  u_display_name : json;
  u_avatar_url : json;
  u_department : json;
  u_position : json;
  u_staff_no : json;
  u_phone_number : json;
  u_full_name : json;
  u_profile : json;
  u_is_authenticated : bool
}.

(** [a or b] where [b] is only evaluated when [a] is falsy. *)
Definition py_or (a : json) (b : unit -> result json) : result json :=
  if truthy a then Ok a else b tt.

(** [User.get_full_name] on the attributes set so far. *)
Definition get_full_name (first_name last_name username : json) : json :=
  if truthy first_name && truthy last_name
  then JStr (py_str first_name ++ " " ++ py_str last_name)
  else if truthy first_name then first_name
  else if truthy last_name then last_name
  else username.

(** [User.__init__(user_data)], statement by statement. *)
Definition User_init (user_data : json) : result identity :=
  p <-? dict_get user_data "profile" JNull;;
  let profile_data := if truthy p then p else JObj [] in
  id <-? dict_get user_data "id" JNull;;
  username <-? dict_get user_data "username" (JStr "");;
  e <-? dict_get user_data "email" JNull;;
  email <-? py_or e (fun _ => dict_get profile_data "email" (JStr ""));;
  f <-? dict_get user_data "first_name" JNull;;
  first_name <-? py_or f (fun _ => dict_get profile_data "first_name" (JStr ""));;
  l <-? dict_get user_data "last_name" JNull;;
  last_name <-? py_or l (fun _ => dict_get profile_data "last_name" (JStr ""));;
  is_active <-? dict_get user_data "is_active" (JBool true);;
  is_staff <-? dict_get user_data "is_staff" (JBool false);;
  is_superuser <-? dict_get user_data "is_superuser" (JBool false);;
  modules <-? dict_get user_data "modules" (JArr []);;
  permissions <-? dict_get user_data "permissions" (JObj []);;
  token <-? dict_get user_data "token" (JStr "");;
  d <-? dict_get user_data "display_name" JNull;;
  display_name <-? py_or d (fun _ =>
                    fn <-? dict_get profile_data "full_name" JNull;;
                    py_or fn (fun _ => Ok (get_full_name first_name last_name username)));;
  a <-? dict_get user_data "avatar_url" JNull;;
  avatar_url <-? py_or a (fun _ => dict_get profile_data "avatar_url" (JStr ""));;
  dp <-? dict_get user_data "department" JNull;;
  department <-? py_or dp (fun _ => dict_get profile_data "department" (JStr ""));;
  po <-? dict_get user_data "position" JNull;;
  position <-? py_or po (fun _ => dict_get profile_data "position" (JStr ""));;
  staff_no <-? dict_get profile_data "staff_number" (JStr "");;
  phone_number <-? dict_get profile_data "phone_number" (JStr "");;
  full_name <-? dict_get profile_data "full_name" (get_full_name first_name last_name username);;
  Ok {| u_id := id; u_username := username; u_email := email;
        u_first_name := first_name; u_last_name := last_name;
        u_is_active := is_active; u_is_staff := is_staff; u_is_superuser := is_superuser;
        u_modules := modules; u_permissions := permissions; u_token := token;
        u_display_name := display_name; u_avatar_url := avatar_url;
        u_department := department; u_position := position;
        u_staff_no := staff_no; u_phone_number := phone_number; u_full_name := full_name;
        u_profile := profile_data;
        u_is_authenticated := true |}.

(* ------------------------------------------------------------------ *)
(** ** Shared state: the cache and the remote calls made *)

(** A Python object held in the cache or returned by a cache read:
    a JSON value ([None] is [PJson JNull]) or a [User]. *)
Inductive pyobj : Type :=
| PJson (j : json)
| PUser (u : identity).

Definition py_none : pyobj := PJson JNull.

(** A [User] instance defines no [__bool__] and is always truthy. *)
Definition truthy_obj (o : pyobj) : bool :=
  match o with
  | PJson j => truthy j
  | PUser _ => true
  end.

(** The object [_get_cache()] returns: Django's cache, whose backing store
    follows the interface of the spec's section 6 (a key-value store; the
    expiry of entries is not modelled, every read below is "immediately"
    after the writes), or the [MockCache] of [cache.py] when Django cannot
    be imported or is not configured. *)
Inductive backend : Type :=
| DjangoCache (kv : list (string * pyobj))
| MockCache.

Inductive remote_call : Type :=
| CallVerify (token : string)
| CallPermissions (token : string) (user_id : json).

Record state : Type := { st_cache : backend; st_calls : list remote_call }.

(** State and exceptions. *)
Definition M (A : Type) : Type := state -> result A * state.

Definition ret {A} (a : A) : M A := fun st => (Ok a, st).
Definition raise {A} (e : exn) : M A := fun st => (Exc e, st).
Definition bind {A B} (m : M A) (k : A -> M B) : M B :=
  fun st => match m st with
            | (Ok a, st') => k a st'
            | (Exc e, st') => (Exc e, st')
            end.
Definition lift {A} (r : result A) : M A :=
  fun st => match r with Ok a => (Ok a, st) | Exc e => (Exc e, st) end.

(** [try: m except ...: h(e)]: the handler sees the state reached when
    the exception was raised. *)
Definition try_except {A} (m : M A) (h : exn -> M A) : M A :=
  fun st => match m st with
            | (Ok a, st') => (Ok a, st')
            | (Exc e, st') => h e st'
            end.

Notation "x <- m ;; k" := (bind m (fun x => k))
  (at level 61, m at next level, right associativity).
Notation "m ;;; k" := (bind m (fun _ => k))
  (at level 61, right associativity).

Fixpoint remove_key (k : string) (kv : list (string * pyobj)) : list (string * pyobj) :=
  match kv with
  | [] => []
  | (k', v) :: r => if String.eqb k k' then remove_key k r else (k', v) :: remove_key k r
  end.

(** [cache.get(key)] (default [None]). *)
Definition cache_get (key : string) : M pyobj :=
  fun st => match st_cache st with
            | DjangoCache kv => (Ok (match assoc key kv with Some v => v | None => py_none end), st)
            | MockCache => (Ok py_none, st)
            end.

(** [cache.set(key, value, timeout)]. *)
Definition cache_set (key : string) (value : pyobj) (timeout : Z) : M unit :=
  fun st => match st_cache st with
            | DjangoCache kv =>
                (Ok tt, {| st_cache := DjangoCache ((key, value) :: remove_key key kv);
                           st_calls := st_calls st |})
            | MockCache => (Ok tt, st)
            end.

(** [cache.delete(key)]. *)
Definition cache_delete (key : string) : M unit :=
  fun st => match st_cache st with
            | DjangoCache kv =>
                (Ok tt, {| st_cache := DjangoCache (remove_key key kv); st_calls := st_calls st |})
            | MockCache => (Ok tt, st)
            end.

(* ------------------------------------------------------------------ *)
(** ** The cache facade ([cache.py]) *)

(** Module constants of [cache.py], at the defaults of [_get_settings_value]. *)
Definition CACHE_KEY_PREFIX : string := "sso_".
Definition CACHE_TYPE_TOKEN : string := "token".
Definition CACHE_TYPE_PERMISSIONS : string := "permissions".
Definition TOKEN_CACHE_TTL : Z := 300.
Definition USER_CACHE_TTL : Z := 300.
Definition PERMISSIONS_CACHE_TTL : Z := USER_CACHE_TTL.

Definition get_cache_key (key_type : string) (identifier : json) : string :=
  CACHE_KEY_PREFIX ++ key_type ++ "_" ++ py_str identifier.

Definition get_token_cache_key (token_value : string) : string :=
  get_cache_key CACHE_TYPE_TOKEN (JStr token_value).

Definition get_permissions_cache_key (user_id : json) : string :=
  get_cache_key CACHE_TYPE_PERMISSIONS user_id.

(** [timeout or DEFAULT]. *)
Definition timeout_or (timeout : option Z) (default : Z) : Z :=
  match timeout with
  | Some t => if Z.eqb t 0 then default else t
  | None => default
  end.

(** [set_user_permissions_cache(user_id, permissions_data, timeout)]. *)
Definition set_user_permissions_cache (user_id : json) (permissions_data : json)
    (timeout : option Z) : M bool :=
  let cache_key := get_permissions_cache_key user_id in
  let cache_timeout := timeout_or timeout PERMISSIONS_CACHE_TTL in
  try_except (cache_set cache_key (PJson permissions_data) cache_timeout ;;; ret true)
             (fun _ => ret false).

(** [get_user_permissions_cache(user_id)]. After the read, the line
    [log_level = getattr(settings, 'SSO_LOGGING_LEVEL', 'DEBUG' if
    settings.DEBUG else 'INFO')] names [settings], which [cache.py] never
    binds at module level (it is imported only inside
    [_get_settings_value]): the name lookup raises [NameError]. *)
Definition get_user_permissions_cache (user_id : json) : M pyobj :=
  let cache_key := get_permissions_cache_key user_id in
  permissions_data <- cache_get cache_key;;
  raise NameError.

(** [set_token_verification_cache(token_value, user_obj, timeout)]. *)
Definition set_token_verification_cache (token_value : string) (user_obj : identity)
    (timeout : option Z) : M bool :=
  let cache_key := get_token_cache_key token_value in
  let cache_timeout := timeout_or timeout TOKEN_CACHE_TTL in
  try_except (cache_set cache_key (PUser user_obj) cache_timeout ;;; ret true)
             (fun _ => ret false).

(** [get_token_verification_cache(token_value)]: the same unbound
    [settings] as in [get_user_permissions_cache]. *)
Definition get_token_verification_cache (token_value : string) : M pyobj :=
  let cache_key := get_token_cache_key token_value in
  cached_user <- cache_get cache_key;;
  raise NameError.

Definition CACHE_TYPE_USER : string := "user".

Definition get_user_cache_key (user_id : json) : string := get_cache_key CACHE_TYPE_USER user_id.

(** [invalidate_user_cache(user_id)]. *)
Definition invalidate_user_cache (user_id : json) : M unit :=
  cache_delete (get_user_cache_key user_id) ;;;
  cache_delete (get_permissions_cache_key user_id).

(** [invalidate_token_cache(token_value)]. *)
Definition invalidate_token_cache (token_value : string) : M unit :=
  cache_delete (get_token_cache_key token_value).

(* ------------------------------------------------------------------ *)
(** ** Remote service *)

(** What an outbound HTTP call produces: a transport failure (timeout,
    refused connection, DNS failure: a [requests.RequestException]) or a
    response with its status and its body ([None]: not JSON). *)
Inductive http_outcome : Type :=
| Transport
| Response (status : Z) (body : option json).

(** [response.json()]. *)
Definition response_json (body : option json) : result json :=
  match body with Some j => Ok j | None => Exc JSONDecodeError end.

Definition record_call (c : remote_call) : M unit :=
  fun st => (Ok tt, {| st_cache := st_cache st; st_calls := st_calls st ++ [c] |}).

(** Performing a request: the call is recorded, then a transport failure
    is raised as a [requests.RequestException]. *)
Definition perform (c : remote_call) (o : http_outcome) : M (Z * option json) :=
  record_call c ;;;
  match o with
  | Transport => raise ConnectionError
  | Response status body => ret (status, body)
  end.

(* ------------------------------------------------------------------ *)
(** ** Identity resolver ([SSOAuthentication._get_user_from_token]) *)

Section Resolver.
(** The response of the verify endpoint to a token. *)
Variable verify_endpoint : string -> http_outcome.
(** The token-cache reader the resolver calls. *)
Variable token_cache_reader : string -> M pyobj.

Definition _get_user_from_token (token : string) : M pyobj :=
  cached_user <- token_cache_reader token;;
  if truthy_obj cached_user then ret cached_user
  else
    try_except
      (r <- perform (CallVerify token) (verify_endpoint token);;
       let '(status, body) := r in
       if Z.eqb status 200 then
         user_data <- lift (response_json body);;
         lift (dict_get user_data "username" (JStr "unknown")) ;;;
         user <- lift (User_init user_data);;
         set_token_verification_cache token user None ;;;
         ret (PUser user)
       else if Z.eqb status 401 then
         error_data <- lift (response_json body);;
         code <- lift (dict_get error_data "code" JNull);;
         if json_eq_str code "token_expired" then raise TokenExpiredError
         else raise TokenError
       else raise TokenError)
      (fun e => if is_request_exception e then raise TokenError else raise e).

End Resolver.

(** The resolver as written, reading the token cache through
    [get_token_verification_cache]. *)
Definition get_user_from_token_src (verify_endpoint : string -> http_outcome) :=
  _get_user_from_token verify_endpoint get_token_verification_cache.

(* ------------------------------------------------------------------ *)
(** ** Authorization gate ([SSOPermission.has_permission], [check_permission]) *)

(** A request as the permission code reads it: [request.user] ([None]
    for a falsy user), [request.headers] and [request.COOKIES]. *)
Record request : Type := {
  r_user : option identity;
  r_headers : list (string * string);
  r_cookies : list (string * json)
}.

(** [auth_header.split(' ')[1]] for a header starting with ["Bearer "]:
    the text after the first space, up to the next space. *)
Fixpoint take_until_space (s : string) : string :=
  match s with
  | EmptyString => EmptyString
  | String c r => if Ascii.eqb c " "%char then EmptyString else String c (take_until_space r)
  end.

Definition split_space_1 (s : string) : string := take_until_space (String.substring 7 (String.length s) s).

(** The log line [auth_token[:10]...auth_token[-4:] if len(auth_token) > 14]
    succeeds on strings and lists and raises on other values. *)
Definition token_log (auth_token : json) : result unit :=
  match auth_token with
  | JStr _ | JArr _ => Ok tt
  | _ => Exc TypeError
  end.

(** [getattr(settings, 'USER_CACHE_TIMEOUT', 300)]. *)
Definition USER_CACHE_TIMEOUT : Z := 300.

(** [_collect_module_permissions] on whatever object [permissions_data]
    holds: a [User] object has no [.get]. *)
Definition collect_obj (cfg : sso_settings) (o : pyobj) : result pyset :=
  match o with
  | PJson j => _collect_module_permissions cfg j
  | PUser _ => Exc AttributeError
  end.

Section Gate.
Variable cfg : sso_settings.
(** The response of the user-permissions endpoint to a bearer token and a
    [user_id] parameter. *)
Variable permissions_endpoint : string -> json -> http_outcome.
(** The permissions-cache reader the gate calls. *)
Variable perm_cache_reader : json -> M pyobj.

(** The token lookup of [_get_user_permissions], in priority order. *)
Definition find_auth_token (u : identity) (req : request) : json :=
  if truthy (u_token u) then u_token u
  else match assoc "Authorization" (r_headers req) with
       | Some h =>
           if negb (String.eqb h "") then
             JStr (if startswith h "Bearer " then split_space_1 h else h)
           else match assoc "auth_access_token" (r_cookies req) with
                | Some c => c
                | None => JNull
                end
       | None =>
           match assoc "auth_access_token" (r_cookies req) with
           | Some c => c
           | None => JNull
           end
       end.

(** [SSOPermission._get_user_permissions(request)]. *)
Definition _get_user_permissions (req : request) : M pyobj :=
  match r_user req with
  | None => ret py_none
  | Some u =>
      if negb (truthy (u_id u)) then ret py_none
      else
        permissions_data <- perm_cache_reader (u_id u);;
        if truthy_obj permissions_data then ret permissions_data
        else
          try_except
            (let auth_token := find_auth_token u req in
             if negb (truthy auth_token) then ret py_none
             else
               lift (token_log auth_token) ;;;
               r <- perform (CallPermissions (py_str auth_token) (u_id u))
                            (permissions_endpoint (py_str auth_token) (u_id u));;
               let '(status, body) := r in
               if Z.eqb status 200 then
                 permissions_data <- lift (response_json body);;
                 set_user_permissions_cache (u_id u) permissions_data (Some USER_CACHE_TIMEOUT) ;;;
                 ret (PJson permissions_data)
               else ret py_none)
            (fun _ => ret py_none)
  end.

(** [SSOPermission.has_permission(request, view)]; [required_permissions]
    is [view.required_permissions]. *)
Definition has_permission (req : request) (required_permissions : list string) : M bool :=
  match r_user req with
  | None => ret false
  | Some u =>
      if negb (u_is_authenticated u) then ret false
      else if truthy (u_is_superuser u) then ret true
      else match required_permissions with
           | [] => ret true
           | _ =>
               permissions_data <- _get_user_permissions req;;
               if negb (truthy_obj permissions_data) then ret false
               else
                 all_permissions <- lift (collect_obj cfg permissions_data);;
                 ret (forallb (fun perm => set_mem (HStr perm) all_permissions) required_permissions)
           end
  end.

(** The [permissions] argument of [check_permission]: a string or a list. *)
Inductive perm_arg : Type :=
| PermOne (s : string)
| PermList (l : list string).

(** The [MockRequest] built by [check_permission]. *)
Definition mock_request (u : identity) : request := {|
  r_user := Some u;
  r_headers := [];
  r_cookies := if truthy (u_token u) then [("auth_access_token", u_token u)] else []
|}.

(** [check_permission(user, module, permissions)]. *)
Definition check_permission (user : option identity) (module : string) (permissions : perm_arg)
    : M bool :=
  match user with
  | None => ret false
  | Some u =>
      if negb (u_is_authenticated u) then ret false
      else if truthy (u_is_superuser u) then ret true
      else
        let permissions := match permissions with PermOne s => [s] | PermList l => l end in
        try_except
          (permissions_data <- perm_cache_reader (u_id u);;
           found <- (if truthy_obj permissions_data then ret (Some permissions_data)
                     else d <- _get_user_permissions (mock_request u);;
                          ret (if truthy_obj d then Some d else None));;
           match found with
           | None => ret false
           | Some permissions_data =>
               all_permissions <- lift (collect_obj cfg permissions_data);;
               ret (forallb (fun perm =>
                               set_mem (HStr (format_permission cfg module perm)) all_permissions)
                            permissions)
           end)
          (fun _ => ret false)
  end.

End Gate.

(** The gate as written, reading the permissions cache through
    [get_user_permissions_cache]. *)
Definition has_permission_src (cfg : sso_settings) (ep : string -> json -> http_outcome) :=
  has_permission cfg ep get_user_permissions_cache.

Definition check_permission_src (cfg : sso_settings) (ep : string -> json -> http_outcome) :=
  check_permission cfg ep get_user_permissions_cache.

(** A cache read that finds nothing and leaves the state as it is. *)
Definition missing_reader {K : Type} : K -> M pyobj := fun _ => ret py_none.

(* ------------------------------------------------------------------ *)
(** ** The rest of [models.User] *)

(** [s.split('.')]. *)
Fixpoint split_dot (s : string) : list string :=
  match s with
  | EmptyString => [EmptyString]
  | String c r =>
      let parts := split_dot r in
      if Ascii.eqb c "."%char then EmptyString :: parts
      else match parts with
           | p :: ps => String c p :: ps
           | [] => [String c EmptyString]
           end
  end.

(** [x in container] for a string [x]: list membership by [==], key
    membership for a dict, substring for a string; [TypeError] otherwise. *)
Definition py_in_str (x : string) (container : json) : result bool :=
  match container with
  | JArr l => Ok (existsb (fun j => json_eq_str j x) l)
  | JObj kvs => Ok (match assoc x kvs with Some _ => true | None => false end)
  | JStr s => Ok (str_contains s x)
  | _ => Exc TypeError
  end.

(** [User.has_perm(perm)]; the [ValueError] of the two-name unpacking is
    caught and gives [False]. *)
Definition has_perm (u : identity) (perm : string) : result bool :=
  if truthy (u_is_superuser u) then Ok true
  else match split_dot perm with
       | [module_code; perm_code] =>
           module_permissions <-? dict_get (u_permissions u) module_code (JObj []);;
           ps <-? dict_get module_permissions "permissions" (JArr []);;
           py_in_str perm_code ps
       | _ => Ok false
       end.

(** [User.has_module_perms(module_code)]. *)
Definition has_module_perms (u : identity) (module_code : string) : result bool :=
  if truthy (u_is_superuser u) then Ok true
  else py_in_str module_code (u_modules u).

(** [User.get_all_permissions()]. *)
Definition get_all_permissions (u : identity) : json := u_permissions u.

(** [u] with its [permissions] and [modules] attributes replaced. *)
Definition with_permissions (u : identity) (permissions modules : json) : identity := {|
  u_id := u_id u; u_username := u_username u; u_email := u_email u;
  u_first_name := u_first_name u; u_last_name := u_last_name u;
  u_is_active := u_is_active u; u_is_staff := u_is_staff u; u_is_superuser := u_is_superuser u;
  u_modules := modules; u_permissions := permissions; u_token := u_token u;
  u_display_name := u_display_name u; u_avatar_url := u_avatar_url u;
  u_department := u_department u; u_position := u_position u;
  u_staff_no := u_staff_no u; u_phone_number := u_phone_number u;
  u_full_name := u_full_name u; u_profile := u_profile u;
  u_is_authenticated := u_is_authenticated u |}.

(** [User.set_permissions(permissions_data)]: the user after the call. Only
    a non-empty dict is taken; otherwise the warning's [json.dumps] runs
    (raising [TypeError] on a [User], which the [except] swallows) and the
    user is unchanged. *)
Definition set_permissions (u : identity) (permissions_data : pyobj) : identity :=
  match permissions_data with
  | PJson (JObj kvs) =>
      if truthy (JObj kvs)
      then with_permissions u (JObj kvs) (JArr (map (fun kv => JStr (fst kv)) kvs))
      else u
  | _ => u
  end.

(** [User.get_profile()]. *)
Definition get_profile (u : identity) : json :=
  JObj ([("id", u_id u); ("username", u_username u); ("email", u_email u);
         ("first_name", u_first_name u); ("last_name", u_last_name u);
         ("full_name", get_full_name (u_first_name u) (u_last_name u) (u_username u));
         ("display_name", u_display_name u); ("is_active", u_is_active u);
         ("is_staff", u_is_staff u); ("is_superuser", u_is_superuser u)]
        ++ (if truthy (u_avatar_url u) then [("avatar_url", u_avatar_url u)] else [])
        ++ (if truthy (u_department u) then [("department", u_department u)] else [])
        ++ (if truthy (u_position u) then [("position", u_position u)] else []))%list.

(* ------------------------------------------------------------------ *)
(** ** Exceptions ([exceptions.py]) *)

(** The attributes [message] and [code] of an [SSOAuthenticationError]. *)
Record sso_error : Type := { err_message : string; err_code : string }.

(** [settings.ERROR_RESPONSE.get(name, {})], with [ERROR_RESPONSE] a dict
    of dicts of strings ([[]] when the setting is absent). *)
Definition error_config (error_response : list (string * list (string * string)))
    (name : string) : list (string * string) :=
  match assoc name error_response with Some c => c | None => [] end.

(** [a or b] for an optional string argument [a] ([None] or a string). *)
Definition str_or (a : option string) (b : string) : string :=
  match a with
  | Some s => if String.eqb s "" then b else s
  | None => b
  end.

(** [SSOAuthenticationError.__init__(message, code)]. *)
Definition SSOAuthenticationError_init (message : string) (code : option string) : sso_error :=
  {| err_message := message; err_code := str_or code "authentication_error" |}.

(** [TokenError.__init__(message, code)]. *)
Definition TokenError_init (error_response : list (string * list (string * string)))
    (message code : option string) : sso_error :=
  let error_config := error_config error_response "TOKEN_INVALID" in
  let default_message := sget error_config "message" "Invalid authentication token" in
  let default_code := sget error_config "code" "token_invalid" in
  SSOAuthenticationError_init (str_or message default_message) (Some (str_or code default_code)).

(** [TokenExpiredError.__init__(message, code)]: it passes its result on to
    [TokenError.__init__]. *)
Definition TokenExpiredError_init (error_response : list (string * list (string * string)))
    (message code : option string) : sso_error :=
  let error_config := error_config error_response "TOKEN_EXPIRED" in
  let default_message := sget error_config "message" "Authentication token expired" in
  let default_code := sget error_config "code" "token_expired" in
  TokenError_init error_response (Some (str_or message default_message))
                  (Some (str_or code default_code)).

(* ------------------------------------------------------------------ *)
(** ** The user-data cache decorator and the cache keys ([cache.py]) *)

(** The wrapper of [cache_user_data(timeout)] up to the call of the view:
    the value it assigns to [request.user_data] ([None]: the view is called
    without it). [user] is [request.user] ([None]: the request has no
    [user] attribute). *)
Definition cache_user_data (timeout : option Z) (user : option identity) : M (option pyobj) :=
  match user with
  | None => ret None
  | Some u =>
      if negb (u_is_authenticated u) then ret None
      else
        let cache_key := get_user_cache_key (u_id u) in
        user_data <- cache_get cache_key;;
        match user_data with
        | PJson JNull =>
            let permissions := get_all_permissions u in
            let profile := get_profile u in
            let user_data := PJson (JObj [("permissions", permissions); ("profile", profile)]) in
            let cache_timeout := timeout_or timeout USER_CACHE_TTL in
            cache_set cache_key user_data cache_timeout ;;;
            ret (Some user_data)
        | _ => ret (Some user_data)
        end
  end.

(* ------------------------------------------------------------------ *)
(** ** Authentication backend ([SSOAuthentication]) *)

(** [c.isspace()] for a character read as a Latin-1 code point. *)
Definition py_isspace (c : ascii) : bool :=
  let n := nat_of_ascii c in
  (((9 <=? n) && (n <=? 13)) || ((28 <=? n) && (n <=? 32)) || (n =? 133) || (n =? 160))%nat.

Fixpoint lstrip (s : string) : string :=
  match s with
  | EmptyString => EmptyString
  | String c r => if py_isspace c then lstrip r else s
  end.

Fixpoint rstrip (s : string) : string :=
  match s with
  | EmptyString => EmptyString
  | String c r =>
      let r' := rstrip r in
      if String.eqb r' "" && py_isspace c then EmptyString else String c r'
  end.

(** [s.strip()]. *)
Definition strip (s : string) : string := rstrip (lstrip s).

(** [SSOAuthentication._get_token_from_request(request)]; the
    [HTTP_AUTHORIZATION] entry of [request.META] is the [Authorization]
    header. [None] is [JNull]. *)
Definition _get_token_from_request (req : request) : json :=
  let auth_header := match assoc "Authorization" (r_headers req) with
                     | Some h => h
                     | None => ""
                     end in
  if startswith auth_header "Bearer " then
    JStr (strip (String.substring 7 (String.length auth_header) auth_header))
  else
    match assoc "auth_access_token" (r_cookies req) with
    | Some token => if truthy token then token else JNull
    | None => JNull
    end.

(** What [authenticate] produces: [None], the pair [(user, None)], or the
    [AuthenticationFailed] it raises, with the detail [str(e)] of a caught
    [TokenError] (whose class is kept) or its generic message. *)
Inductive auth_result : Type :=
| AuthAnonymous
| AuthUser (user : pyobj)
| AuthFailedToken (e : exn)
| AuthFailedUnexpected.

(** [except TokenError]: [TokenExpiredError] is a subclass. *)
Definition is_token_error (e : exn) : bool :=
  match e with
  | TokenError | TokenExpiredError => true
  | _ => false
  end.

Section Authentication.
Variable verify_endpoint : string -> http_outcome.
Variable token_cache_reader : string -> M pyobj.
Variable permissions_endpoint : string -> json -> http_outcome.
Variable perm_cache_reader : json -> M pyobj.

(** [SSOAuthentication._load_user_permissions(user)]: the user object
    after the call, [set_permissions] having updated it in place. A cached
    object that is not a [User] has no [id] attribute. *)
Definition _load_user_permissions (user : pyobj) : M pyobj :=
  match user with
  | PJson _ => ret user
  | PUser u =>
      if negb (truthy (u_id u)) then ret user
      else
        permissions_data <- perm_cache_reader (u_id u);;
        if truthy_obj permissions_data then ret (PUser (set_permissions u permissions_data))
        else
          try_except
            (r <- perform (CallPermissions (py_str (u_token u)) (u_id u))
                          (permissions_endpoint (py_str (u_token u)) (u_id u));;
             let '(status, body) := r in
             if Z.eqb status 200 then
               permissions_data <- lift (response_json body);;
               let u' := set_permissions u (PJson permissions_data) in
               set_user_permissions_cache (u_id u) permissions_data None ;;;
               ret (PUser u')
             else ret user)
            (fun _ => ret user)
  end.

(** [SSOAuthentication.authenticate(request)]. A request cookie is a
    string, passed on as is. *)
Definition authenticate (req : request) : M auth_result :=
  try_except
    (let token := _get_token_from_request req in
     if negb (truthy token) then ret AuthAnonymous
     else
       user <- _get_user_from_token verify_endpoint token_cache_reader (py_str token);;
       if negb (truthy_obj user) then raise TokenError
       else
         user <- _load_user_permissions user;;
         ret (AuthUser user))
    (fun e => if is_token_error e then ret (AuthFailedToken e) else ret AuthFailedUnexpected).

End Authentication.

(** The backend as written, with the cache readers of [cache.py]. *)
Definition authenticate_src (verify_endpoint : string -> http_outcome)
    (permissions_endpoint : string -> json -> http_outcome) :=
  authenticate verify_endpoint get_token_verification_cache
               permissions_endpoint get_user_permissions_cache.

(* ------------------------------------------------------------------ *)
(** ** Class-based and decorator gates ([permissions.py]) *)

(** An argument of [module_permission_required]: a permission string or a
    [(module, action)] pair. *)
Inductive perm_spec : Type :=
| PSName (perm : string)
| PSTuple (module action : string).

(** What the wrapped view does: call the view or render the 403 page. *)
Inductive view_outcome : Type :=
| ViewCalled
| Forbidden403.

Section Decorator.
Variable cfg : sso_settings.
Variable permissions_endpoint : string -> json -> http_outcome.
Variable perm_cache_reader : json -> M pyobj.

(** The loop [for perm in permissions] of the decorator. *)
Fixpoint required_loop (parent_module : string) (all_permissions : pyset)
    (permissions : list perm_spec) : view_outcome :=
  match permissions with
  | [] => ViewCalled
  | p :: r =>
      let perm := match p with
                  | PSName s => s
                  | PSTuple module action =>
                      if String.eqb module parent_module then action
                      else format_permission cfg module action
                  end in
      if set_mem (HStr perm) all_permissions then required_loop parent_module all_permissions r
      else Forbidden403
  end.

(** [module_permission_required(perm_1, ..., perm_n)(view)(viewset, request)] up
    to the call of the view. Its first line reads [request.user.username]. *)
Definition module_permission_required (permissions : list perm_spec) (req : request)
    : M view_outcome :=
  match r_user req with
  | None => raise AttributeError
  | Some u =>
      if truthy (u_is_superuser u) then ret ViewCalled
      else
        permissions_data <- _get_user_permissions permissions_endpoint perm_cache_reader req;;
        if negb (truthy_obj permissions_data) then ret Forbidden403
        else
          all_permissions <- lift (collect_obj cfg permissions_data);;
          let parent_module := get_parent_module cfg in
          ret (required_loop parent_module all_permissions permissions)
  end.

(** [ModulePermissionRequiredMixin.check_permissions(request)], with the
    class attributes [required_module] and [required_permissions]. *)
Definition mixin_check_permissions (required_module : string)
    (required_permissions : list string) (user : option identity) : M bool :=
  match user with
  | None => ret false
  | Some u =>
      if negb (u_is_authenticated u) then ret false
      else if truthy (u_is_superuser u) then ret true
      else match required_permissions with
           | [] => ret true
           | _ => check_permission cfg permissions_endpoint perm_cache_reader user
                                   required_module (PermList required_permissions)
           end
  end.

End Decorator.

Definition module_permission_required_src (cfg : sso_settings)
    (ep : string -> json -> http_outcome) :=
  module_permission_required cfg ep get_user_permissions_cache.

Definition mixin_check_permissions_src (cfg : sso_settings)
    (ep : string -> json -> http_outcome) :=
  mixin_check_permissions cfg ep get_user_permissions_cache.

(* ------------------------------------------------------------------ *)
(** ** Concrete inputs *)

(** The nine permissions the scenario's full grant produces. *)
Definition scenario_expected : pyset :=
  [HStr "manage_default_system";
   HStr "A.view_A"; HStr "A.add_A"; HStr "A.change_A"; HStr "A.delete_A";
   HStr "B.view_B"; HStr "B.add_B"; HStr "B.change_B"; HStr "B.delete_B"].

(** An identity as [User.__init__] builds it from [{"id": 1, "username":
    "alice"}], with the flags given. *)
Definition sample_user (authenticated superuser : bool) : identity := {|
  u_id := JNum 1; u_username := JStr "alice"; u_email := JStr ""; u_first_name := JStr "";
  u_last_name := JStr ""; u_is_active := JBool true; u_is_staff := JBool false;
  u_is_superuser := JBool superuser; u_modules := JArr []; u_permissions := JObj [];
  u_token := JStr ""; u_display_name := JStr "alice"; u_avatar_url := JStr "";
  u_department := JStr ""; u_position := JStr ""; u_staff_no := JStr "";
  u_phone_number := JStr ""; u_full_name := JStr "alice"; u_profile := JObj [];
  u_is_authenticated := authenticated |}.

(** An empty Django cache and no remote call made yet. *)
Definition empty_state : state := {| st_cache := DjangoCache []; st_calls := [] |}.

(** A remote service that cannot be reached. *)
Definition unreachable_permissions : string -> json -> http_outcome := fun _ _ => Transport.

(** [v] with its [is_active] attribute replaced. *)
Definition with_is_active (v : identity) (a : json) : identity := {|
  u_id := u_id v; u_username := u_username v; u_email := u_email v;
  u_first_name := u_first_name v; u_last_name := u_last_name v;
  u_is_active := a; u_is_staff := u_is_staff v; u_is_superuser := u_is_superuser v;
  u_modules := u_modules v; u_permissions := u_permissions v; u_token := u_token v;
  u_display_name := u_display_name v; u_avatar_url := u_avatar_url v;
  u_department := u_department v; u_position := u_position v;
  u_staff_no := u_staff_no v; u_phone_number := u_phone_number v;
  u_full_name := u_full_name v; u_profile := u_profile v;
  u_is_authenticated := u_is_authenticated v |}.

(** The verify endpoint answering 401 with the body [{"code": code}]. *)
Definition verify_401 (code : json) : string -> http_outcome :=
  fun _ => Response 401 (Some (JObj [("code", code)])).

(** A verify endpoint that cannot be reached. *)
Definition unreachable_verify : string -> http_outcome := fun _ => Transport.

(** A request of an authenticated non-superuser with no token attribute,
    no [Authorization] header and no [auth_access_token] cookie. *)
Definition no_token_request : request := {|
  r_user := Some (sample_user true false); r_headers := []; r_cookies := [] |}.

(** A payload whose only entry lacks its ["code"] key. *)
Definition malformed_payload : json :=
  JObj [("permissions", JArr [JObj [("permissions", JArr [])]])].

(** For a well-formed payload [p]: the codenames of its first entry
    whose code is the parent module [pm] (the set [parent_permissions]),
    the strings ["m.c"] of its other entries, the number of codenames it
    lists, and how many of its entries carry the parent code. *)
Fixpoint first_parent_codenames (pm : string) (p : list module_entry) : list string :=
  match p with
  | [] => []
  | e :: r => if String.eqb (me_code e) pm then me_codenames e else first_parent_codenames pm r
  end.

Fixpoint child_strings (pm : string) (p : list module_entry) : list string :=
  match p with
  | [] => []
  | e :: r =>
      ((if String.eqb (me_code e) pm then []
        else map (fun c => (me_code e ++ "." ++ c)%string) (me_codenames e)) ++ child_strings pm r)%list
  end.

Definition listed_count (p : list module_entry) : nat := List.length (flat_map me_codenames p).

Definition parent_entries (pm : string) (p : list module_entry) : nat :=
  List.length (filter (fun e => String.eqb (me_code e) pm) p).

(** [s.add(x)] for each [x] of [l] in turn. *)
Definition add_each (l : list hval) (acc : pyset) : pyset :=
  fold_left (fun acc y => set_add y acc) l acc.

(** A payload without the special parent codenames: parent [SYS] with
    ["audit_log"], child [A] with two codenames, child [B] with one. *)
Definition sample_plain_payload : list module_entry :=
  [{| me_code := "SYS"; me_codenames := ["audit_log"] |};
   {| me_code := "A"; me_codenames := ["view_A"; "add_A"] |};
   {| me_code := "B"; me_codenames := ["view_B"] |}].

(** A payload whose child entry lists the same codename twice. *)
Definition duplicate_payload : list module_entry :=
  [{| me_code := "A"; me_codenames := ["view_A"; "view_A"] |}].

(** A request of user [u] with the [Authorization] header [h] and the
    cookies given. *)
Definition header_request (u : option identity) (h : string) (cookies : list (string * json))
    : request :=
  {| r_user := u; r_headers := [("Authorization", h)]; r_cookies := cookies |}.

(** A verify endpoint accepting every token for the user 7, [bob], whose
    own token is ["tk"]. *)
Definition verify_ok_body : json :=
  JObj [("id", JNum 7); ("username", JStr "bob"); ("token", JStr "tk")].

Definition verify_ok : string -> http_outcome := fun _ => Response 200 (Some verify_ok_body).

(** A user-permissions payload in the shape [User.has_perm] reads: module
    [A] with the permission code [view]. *)
Definition module_permissions_body : json :=
  JObj [("A", JObj [("permissions", JArr [JStr "view"])])].

Definition permissions_ok : string -> json -> http_outcome :=
  fun _ _ => Response 200 (Some module_permissions_body).

(** [sample_user true false] holding the token ["tk"]. *)
Definition token_user : identity := {|
  u_id := JNum 1; u_username := JStr "alice"; u_email := JStr ""; u_first_name := JStr "";
  u_last_name := JStr ""; u_is_active := JBool true; u_is_staff := JBool false;
  u_is_superuser := JBool false; u_modules := JArr []; u_permissions := JObj [];
  u_token := JStr "tk"; u_display_name := JStr "alice"; u_avatar_url := JStr "";
  u_department := JStr ""; u_position := JStr ""; u_staff_no := JStr "";
  u_phone_number := JStr ""; u_full_name := JStr "alice"; u_profile := JObj [];
  u_is_authenticated := true |}.

(* ================================================================== *)
(** * Theorems *)

Lemma string_length_append (a b : string) :
  String.length (a ++ b) = (String.length a + String.length b)%nat.
Proof. induction a as [|c a IH]; simpl; [reflexivity | now rewrite IH]. Qed.

Lemma string_append_assoc (a b c : string) : (a ++ b) ++ c = a ++ (b ++ c).
Proof. induction a as [|x a IH]; simpl; [reflexivity | now rewrite IH]. Qed.

(** C1 (amended): [format_permission] is a function of the module, the
    action and the configured parent module. For a child module [m] the
    payload side qualifies a codename [c] as ["m.c"]; [format_permission]
    returns that same string exactly when [c] ends with ["_m"] or contains
    ["_m_"], and returns ["m.c_m"] for a codename that embeds neither. *)
Theorem format_permission_child_qualification :
  forall cfg m c, m <> get_parent_module cfg ->
    child_perms (JStr m) [JObj [("codename", JStr c)]] [] = Ok [HStr (m ++ "." ++ c)] /\
    (format_permission cfg m c = m ++ "." ++ c <->
       (endswith c ("_" ++ m) || str_contains c ("_" ++ m ++ "_")) = true) /\
    ((endswith c ("_" ++ m) || str_contains c ("_" ++ m ++ "_")) = false ->
       format_permission cfg m c = m ++ "." ++ c ++ "_" ++ m).
Proof.
  intros cfg m c Hm.
  assert (Hne : String.eqb m (get_parent_module cfg) = false) by now apply String.eqb_neq.
  unfold format_permission. rewrite Hne.
  split; [reflexivity|].
  destruct (endswith c ("_" ++ m) || str_contains c ("_" ++ m ++ "_")).
  - split; [split; reflexivity | discriminate].
  - split; [|reflexivity]. split; [|discriminate].
    intro H. apply (f_equal String.length) in H.
    rewrite !string_length_append in H. simpl in H. lia.
Qed.

Lemma format_permission_child_qualification_witness :
  "A" <> get_parent_module scenario_settings /\
  child_perms (JStr "A") [JObj [("codename", JStr "view_A")]] [] = Ok [HStr ("A" ++ "." ++ "view_A")].
Proof.
  assert (H : "A" <> get_parent_module scenario_settings) by (vm_compute; discriminate).
  split; [exact H|].
  exact (proj1 (format_permission_child_qualification scenario_settings "A" "view_A" H)).
Defined.

(** C1 counterexample: for the child module ["A"] and the basic codename
    ["view"], the payload side yields ["A.view"] while [format_permission]
    yields ["A.view_A"]. *)
Lemma format_permission_basic_codename_counterexample :
  child_perms (JStr "A") [JObj [("codename", JStr "view")]] [] = Ok [HStr "A.view"] /\
  format_permission scenario_settings "A" "view" = "A.view_A" /\
  format_permission scenario_settings "A" "view" <> "A.view".
Proof.
  split; [reflexivity|]. split; [reflexivity|].
  vm_compute. discriminate.
Qed.

(** C3 (amended): with parent [SYS], children [A] and [B] and the default
    permission types, a payload whose first entry is [SYS] with
    ["manage_default_system"] aggregates to the nine permissions
    [manage_default_system], [A.view_A], [A.add_A], [A.change_A],
    [A.delete_A], [B.view_B], [B.add_B], [B.change_B], [B.delete_B],
    whatever entries follow: they are never scanned. *)
Theorem manage_system_scenario :
  forall rest : list module_entry,
    _collect_module_permissions scenario_settings
      (payload_json ({| me_code := "SYS"; me_codenames := ["manage_default_system"] |} :: rest))
    = Ok scenario_expected /\
    List.length scenario_expected = 9%nat /\ NoDup scenario_expected.
Proof.
  intro rest. split; [reflexivity|]. split; [reflexivity|].
  unfold scenario_expected.
  repeat constructor; simpl; intuition discriminate.
Qed.

(** C3 counterexample: the scenario's effective set does not contain
    ["A.view"]; it contains ["A.view_A"]. *)
Lemma manage_system_scenario_counterexample :
  _collect_module_permissions scenario_settings scenario_payload = Ok scenario_expected /\
  set_mem (HStr "A.view") scenario_expected = false /\
  set_mem (HStr "A.view_A") scenario_expected = true.
Proof. vm_compute. repeat split. Qed.

(** C4 (amended): an authenticated identity whose [is_superuser] is truthy
    passes [check_permission] and [has_permission] for every module and
    permission list, with the state (cache and remote calls) untouched. *)
Theorem superuser_check_allows :
  forall cfg ep reader u module perms st,
    u_is_authenticated u = true -> truthy (u_is_superuser u) = true ->
    check_permission cfg ep reader (Some u) module perms st = (Ok true, st) /\
    (forall headers cookies required,
        has_permission cfg ep reader
          {| r_user := Some u; r_headers := headers; r_cookies := cookies |} required st
        = (Ok true, st)).
Proof.
  intros cfg ep reader u module perms st Ha Hs.
  unfold check_permission, has_permission; simpl.
  rewrite Ha, Hs. split; reflexivity.
Qed.

Lemma superuser_check_allows_witness :
  u_is_authenticated (sample_user true true) = true /\
  truthy (u_is_superuser (sample_user true true)) = true /\
  check_permission_src scenario_settings unreachable_permissions (Some (sample_user true true))
    "A" (PermList ["view"]) empty_state = (Ok true, empty_state).
Proof.
  split; [reflexivity|]. split; [reflexivity|].
  exact (proj1 (superuser_check_allows scenario_settings unreachable_permissions
                  get_user_permissions_cache (sample_user true true) "A" (PermList ["view"])
                  empty_state eq_refl eq_refl)).
Defined.

(** C4 counterexample: a superuser identity whose [is_authenticated] is
    false is refused by [check_permission]. *)
Lemma superuser_unauthenticated_counterexample :
  check_permission_src scenario_settings unreachable_permissions (Some (sample_user false true))
    "A" (PermList ["view"]) empty_state = (Ok false, empty_state).
Proof. reflexivity. Qed.

Ltac rbind_ok H :=
  repeat match type of H with
         | rbind ?m _ = Ok _ =>
             let E := fresh "E" in
             destruct m eqn:E; cbn [rbind] in H; [|discriminate H]
         end.

(** C10: every [User] built by [User.__init__] is authenticated, and the
    gate's decisions do not depend on [is_active]: replacing an identity's
    [is_active] by any value changes neither [check_permission] nor
    [has_permission], state included. *)
Theorem User_init_authenticated :
  forall user_data u, User_init user_data = Ok u ->
    u_is_authenticated u = true /\
    (forall cfg ep reader v a module perms st,
        check_permission cfg ep reader (Some (with_is_active v a)) module perms st =
        check_permission cfg ep reader (Some v) module perms st) /\
    (forall cfg ep reader v a headers cookies required st,
        has_permission cfg ep reader
          {| r_user := Some (with_is_active v a); r_headers := headers; r_cookies := cookies |}
          required st =
        has_permission cfg ep reader
          {| r_user := Some v; r_headers := headers; r_cookies := cookies |} required st).
Proof.
  intros user_data u H. split; [|split].
  - unfold User_init in H. rbind_ok H. injection H as <-. reflexivity.
  - intros. destruct v; reflexivity.
  - intros. destruct v; reflexivity.
Qed.

Lemma User_init_authenticated_witness :
  User_init (JObj [("id", JNum 1); ("username", JStr "alice"); ("is_active", JBool false)])
    = Ok (with_is_active (sample_user true false) (JBool false)) /\
  u_is_authenticated (with_is_active (sample_user true false) (JBool false)) = true.
Proof.
  assert (H : User_init (JObj [("id", JNum 1); ("username", JStr "alice"); ("is_active", JBool false)])
              = Ok (with_is_active (sample_user true false) (JBool false))) by reflexivity.
  split; [exact H|].
  exact (proj1 (User_init_authenticated _ _ H)).
Defined.


(** C5 (amended): when the token-cache read misses (returns a falsy
    object) and the verify call fails at the transport level, the resolver
    records the one verify call and raises [TokenError]. *)
Theorem transport_failure_raises_TokenError :
  forall verify reader token st o st',
    reader token st = (Ok o, st') -> truthy_obj o = false ->
    verify token = Transport ->
    _get_user_from_token verify reader token st =
      (Exc TokenError, {| st_cache := st_cache st'; st_calls := st_calls st' ++ [CallVerify token] |}).
Proof.
  intros verify reader token st o st' Hr Ho Hv.
  unfold _get_user_from_token, bind. rewrite Hr, Ho.
  unfold try_except, perform, bind, record_call. rewrite Hv. reflexivity.
Qed.

Lemma transport_failure_raises_TokenError_witness :
  _get_user_from_token unreachable_verify missing_reader "t" empty_state =
    (Exc TokenError, {| st_cache := DjangoCache []; st_calls := [CallVerify "t"] |}).
Proof.
  exact (transport_failure_raises_TokenError unreachable_verify missing_reader "t" empty_state
           py_none empty_state eq_refl eq_refl eq_refl).
Defined.

(** C5 counterexample: with the verify endpoint unreachable, the resolver
    as written raises [NameError] (its token-cache read fails first), and
    past a cache miss it raises [TokenError]; neither is
    [SSOServiceUnavailableError]. *)
Lemma transport_failure_counterexample :
  fst (get_user_from_token_src unreachable_verify "t" empty_state) = Exc NameError /\
  fst (_get_user_from_token unreachable_verify missing_reader "t" empty_state) = Exc TokenError /\
  Exc NameError <> Exc (A := pyobj) SSOServiceUnavailableError /\
  Exc TokenError <> Exc (A := pyobj) SSOServiceUnavailableError.
Proof. repeat split; discriminate. Qed.

(** C6 (code bug): the resolver as written never reaches the verify
    endpoint: its token-cache read raises [NameError], so a 401 with
    [code = token_expired] does not yield [TokenExpiredError]. Past a cache
    miss, its 401 handler does raise [TokenExpiredError] for that code and
    [TokenError] for another. *)
Theorem expired_token_resolver_name_error :
  get_user_from_token_src (verify_401 (JStr "token_expired")) "t" empty_state
    = (Exc NameError, empty_state) /\
  fst (_get_user_from_token (verify_401 (JStr "token_expired")) missing_reader "t" empty_state)
    = Exc TokenExpiredError /\
  fst (_get_user_from_token (verify_401 (JStr "token_invalid")) missing_reader "t" empty_state)
    = Exc TokenError.
Proof. repeat split. Qed.

(** C7 (code bug): for an authenticated non-superuser with no token by any
    path and an empty cache, [has_permission] as written raises [NameError]
    from its permissions-cache read instead of returning false;
    [check_permission] returns false without a remote call; and past a
    cache miss [has_permission] would return false without a remote call. *)
Theorem no_token_has_permission_name_error :
  has_permission_src scenario_settings unreachable_permissions no_token_request ["A.view_A"]
    empty_state = (Exc NameError, empty_state) /\
  check_permission_src scenario_settings unreachable_permissions (Some (sample_user true false))
    "A" (PermList ["view"]) empty_state = (Ok false, empty_state) /\
  has_permission scenario_settings unreachable_permissions missing_reader no_token_request
    ["A.view_A"] empty_state = (Ok false, empty_state).
Proof. repeat split. Qed.

(** C8 (code bug): [has_permission] lets exceptions through: as written
    its permissions-cache read raises [NameError] out of the check, and a
    cached payload whose entry lacks ["code"] raises [KeyError] out of it,
    where [check_permission] returns false on the same payload. *)
Theorem has_permission_propagates_exceptions :
  fst (has_permission_src scenario_settings unreachable_permissions no_token_request
         ["A.view_A"] empty_state) = Exc NameError /\
  fst (has_permission scenario_settings unreachable_permissions
         (fun _ => ret (PJson malformed_payload)) no_token_request ["A.view_A"] empty_state)
    = Exc KeyError /\
  fst (check_permission scenario_settings unreachable_permissions
         (fun _ => ret (PJson malformed_payload)) (Some (sample_user true false))
         "A" (PermList ["view"]) empty_state) = Ok false.
Proof. repeat split. Qed.

(** C9 (code bug): writing a user's permissions with
    [set_user_permissions_cache] stores them, yet reading them back with
    [get_user_permissions_cache] raises [NameError], with Django's cache and
    with the [MockCache] alike; so does the read after
    [invalidate_user_cache], and every read of the token cache. *)
Theorem permissions_cache_roundtrip_name_error :
  forall st uid v t,
    fst ((set_user_permissions_cache uid v t ;;; get_user_permissions_cache uid) st)
      = Exc NameError /\
    fst ((invalidate_user_cache uid ;;; get_user_permissions_cache uid) st) = Exc NameError /\
    (forall token, fst (get_token_verification_cache token st) = Exc NameError) /\
    (forall kv, set_user_permissions_cache uid v t {| st_cache := DjangoCache kv; st_calls := st_calls st |}
       = (Ok true, {| st_cache := DjangoCache ((get_permissions_cache_key uid, PJson v)
                                                :: remove_key (get_permissions_cache_key uid) kv);
                      st_calls := st_calls st |})).
Proof.
  intros [c calls] uid v t.
  repeat split; intros; destruct c; reflexivity.
Qed.

(** ** Set lemmas *)

Lemma set_mem_spec x s : set_mem x s = true <-> In x s.
Proof. unfold set_mem. destruct (in_dec hval_eq_dec x s); split; congruence || tauto. Qed.

Lemma add_each_In l : forall acc x, In x (add_each l acc) <-> In x acc \/ In x l.
Proof.
  induction l as [|a l IH]; intros acc x; simpl; [tauto|].
  unfold add_each in *. simpl. rewrite IH. unfold set_add.
  destruct (set_mem a acc) eqn:E.
  - apply set_mem_spec in E. split; [tauto|]. intros [H|[H|H]]; subst; tauto.
  - rewrite in_app_iff. simpl. tauto.
Qed.

Lemma add_each_NoDup l : forall acc, NoDup acc -> NoDup (add_each l acc).
Proof.
  induction l as [|a l IH]; intros acc H; simpl; [exact H|].
  apply IH. unfold set_add. destruct (set_mem a acc) eqn:E; [exact H|].
  apply (Permutation_NoDup (Permutation_cons_append acc a)).
  constructor; [|exact H]. intro Hin. apply set_mem_spec in Hin. congruence.
Qed.

Lemma add_each_length l : forall acc, (List.length (add_each l acc) <= List.length acc + List.length l)%nat.
Proof.
  induction l as [|a l IH]; intros acc; simpl; [lia|].
  eapply Nat.le_trans; [apply IH|]. unfold set_add.
  destruct (set_mem a acc); [|rewrite length_app]; simpl; lia.
Qed.

Lemma add_each_app l : forall acc, NoDup (acc ++ l) -> add_each l acc = (acc ++ l)%list.
Proof.
  induction l as [|a l IH]; intros acc H; simpl; [now rewrite app_nil_r|].
  assert (Ha : ~ In a acc).
  { intro Hin. apply (NoDup_remove_2 acc l a H). apply in_or_app. now left. }
  unfold set_add. replace (set_mem a acc) with false.
  - rewrite IH; [now rewrite <- app_assoc|]. now rewrite <- app_assoc.
  - symmetry. destruct (set_mem a acc) eqn:E; [|reflexivity].
    apply set_mem_spec in E. contradiction.
Qed.

Lemma NoDup_map_HStr l : NoDup l -> NoDup (map HStr l).
Proof.
  induction 1 as [|a l Ha Hl IH]; simpl; constructor; [|exact IH].
  intro Hin. apply in_map_iff in Hin as [b [Hb Hin]]. injection Hb as ->. contradiction.
Qed.

(** ** Aggregation of a well-formed payload *)

Lemma codename_set_strings l : forall acc,
  codename_set (map (fun c => JObj [("codename", JStr c)]) l) acc = Ok (add_each (map HStr l) acc).
Proof. induction l as [|c l IH]; intros acc; simpl; [reflexivity|]. apply IH. Qed.

Lemma parent_loop_payload pm p :
  parent_loop pm (map entry_json p) = Ok (add_each (map HStr (first_parent_codenames pm p)) []).
Proof.
  induction p as [|e p IH]; simpl; [reflexivity|].
  destruct (String.eqb (me_code e) pm); [apply codename_set_strings | exact IH].
Qed.

Lemma get_parent_payload cfg p :
  _get_parent_module_permissions cfg (payload_json p)
  = Ok (add_each (map HStr (first_parent_codenames (get_parent_module cfg) p)) []).
Proof. apply parent_loop_payload. Qed.

Lemma child_perms_strings code l : forall acc,
  child_perms (JStr code) (map (fun c => JObj [("codename", JStr c)]) l) acc
  = Ok (add_each (map HStr (map (fun c => code ++ "." ++ c) l)) acc).
Proof. induction l as [|c l IH]; intros acc; simpl; [reflexivity|]. apply IH. Qed.

Lemma child_loop_payload pm p : forall acc,
  child_loop pm (map entry_json p) acc = Ok (add_each (map HStr (child_strings pm p)) acc).
Proof.
  induction p as [|e p IH]; intros acc; simpl; [reflexivity|].
  unfold add_each. rewrite map_app, fold_left_app.
  destruct (String.eqb (me_code e) pm); simpl; [apply IH|].
  rewrite child_perms_strings. simpl. apply IH.
Qed.

Lemma child_strings_length pm p :
  (List.length (first_parent_codenames pm p) + List.length (child_strings pm p) <= listed_count p)%nat /\
  (parent_entries pm p <= 1 ->
   List.length (first_parent_codenames pm p) + List.length (child_strings pm p) = listed_count p)%nat.
Proof.
  unfold listed_count, parent_entries.
  assert (Hc : forall q, (List.length (child_strings pm q) <= List.length (flat_map me_codenames q))%nat /\
                 (List.length (filter (fun e => String.eqb (me_code e) pm) q) = 0 ->
                  List.length (child_strings pm q) = List.length (flat_map me_codenames q))%nat).
  { induction q as [|e q [IH1 IH2]]; simpl; [lia|].
    rewrite !length_app. destruct (String.eqb (me_code e) pm); simpl.
    - split; [lia | discriminate].
    - rewrite length_map. split; [lia|]. intro H. rewrite IH2; [reflexivity | exact H]. }
  induction p as [|e p [IH1 IH2]]; simpl; [lia|].
  rewrite !length_app. destruct (String.eqb (me_code e) pm) eqn:E; simpl.
  - destruct (Hc p) as [H1 H2]. split; [lia|]. intro H. rewrite H2; lia.
  - rewrite length_map. split; [lia|]. intro H. rewrite <- IH2; [lia | exact H].
Qed.

(** C2 (amended): when the first entry of the parent module lists neither
    the configured "manage system" nor "view system" codename, the effective
    set of a well-formed payload is exactly that entry's raw codenames
    together with ["m.c"] for every codename [c] of every entry [m] that is
    not the parent module; it has no duplicates, its size is at most the
    number of codenames the payload lists, and equals it when these strings
    are pairwise distinct and at most one entry carries the parent code. *)
Theorem plain_payload_aggregation :
  forall cfg p,
    let pm := get_parent_module cfg in
    let pp := first_parent_codenames pm p in
    ~ In (sget (get_parent_permissions cfg) "MANAGE_SYSTEM" "manage_default_system") pp ->
    ~ In (sget (get_parent_permissions cfg) "VIEW_SYSTEM" "view_default_system") pp ->
    exists s,
      _collect_module_permissions cfg (payload_json p) = Ok s /\
      NoDup s /\
      (forall x, In x s <-> In x (map HStr (pp ++ child_strings pm p))) /\
      (List.length s <= listed_count p)%nat /\
      (NoDup (pp ++ child_strings pm p) -> (parent_entries pm p <= 1)%nat ->
       s = map HStr (pp ++ child_strings pm p) /\ List.length s = listed_count p).
Proof.
  intros cfg p pm pp Hman Hview.
  set (ps := add_each (map HStr pp) []).
  assert (Hps : forall x, In x ps <-> In x (map HStr pp)).
  { intro x. unfold ps. rewrite add_each_In. simpl. tauto. }
  assert (Hnot : forall n, ~ In n pp -> set_mem (HStr n) ps = false).
  { intros n Hn. destruct (set_mem (HStr n) ps) eqn:E; [|reflexivity].
    apply set_mem_spec, Hps, in_map_iff in E as [b [Hb Hin]]. injection Hb as ->. contradiction. }
  exists (add_each (map HStr (child_strings pm p)) (set_update [] ps)).
  unfold _collect_module_permissions. rewrite get_parent_payload. fold pm pp ps. cbn [rbind].
  rewrite (Hnot _ Hman), (Hnot _ Hview). simpl (dict_get _ _ _). cbn [rbind py_iter].
  rewrite child_loop_payload.
  assert (Hupd : forall x, In x (set_update [] ps) <-> In x ps).
  { intro x. unfold set_update. fold (add_each ps []). rewrite add_each_In. simpl. tauto. }
  destruct (child_strings_length pm p) as [Hle Heq]. fold pp in Hle, Heq.
  split; [reflexivity|]. split; [|split; [|split]].
  - apply add_each_NoDup. unfold set_update. fold (add_each ps []). apply add_each_NoDup. constructor.
  - intro x. rewrite add_each_In, Hupd, Hps, map_app, in_app_iff. tauto.
  - eapply Nat.le_trans; [apply add_each_length|].
    unfold set_update. fold (add_each ps []).
    pose proof (add_each_length ps []) as H1. pose proof (add_each_length (map HStr pp) []) as H2.
    fold ps in H2. rewrite length_map. simpl in H1, H2. rewrite length_map in H2. lia.
  - intros Hnd Hpe.
    assert (Hps_eq : ps = map HStr pp).
    { unfold ps. apply add_each_app. simpl. apply NoDup_map_HStr.
      apply NoDup_app_remove_r in Hnd. exact Hnd. }
    assert (Hupd_eq : set_update [] ps = ps).
    { unfold set_update. fold (add_each ps []). apply add_each_app. simpl.
      rewrite Hps_eq. apply NoDup_map_HStr. apply NoDup_app_remove_r in Hnd. exact Hnd. }
    rewrite Hupd_eq, add_each_app, Hps_eq, <- map_app.
    + split; [reflexivity|]. rewrite length_map, length_app. apply Heq. exact Hpe.
    + rewrite Hps_eq, <- map_app. apply NoDup_map_HStr. exact Hnd.
Qed.

Lemma plain_payload_aggregation_witness :
  exists s,
    _collect_module_permissions scenario_settings (payload_json sample_plain_payload) = Ok s /\
    s = [HStr "audit_log"; HStr "A.view_A"; HStr "A.add_A"; HStr "B.view_B"] /\
    List.length s = listed_count sample_plain_payload.
Proof.
  destruct (plain_payload_aggregation scenario_settings sample_plain_payload)
    as [s [H1 [_ [_ [_ H5]]]]].
  - intro H. vm_compute in H. intuition discriminate.
  - intro H. vm_compute in H. intuition discriminate.
  - exists s. split; [exact H1|].
    destruct H5 as [Hs Hl].
    + vm_compute. repeat constructor; simpl; intuition discriminate.
    + vm_compute. lia.
    + split; [exact Hs | exact Hl].
Defined.

(** C2 counterexample: a child entry listing ["view_A"] twice gives a set
    of size 1 for 2 listed codenames, and the parent entry's raw codename
    ["audit_log"] is in the set although it is no qualified child
    permission. *)
Lemma plain_payload_counterexample :
  _collect_module_permissions scenario_settings (payload_json duplicate_payload)
    = Ok [HStr "A.view_A"] /\
  listed_count duplicate_payload = 2%nat /\
  _collect_module_permissions scenario_settings (payload_json sample_plain_payload)
    = Ok [HStr "audit_log"; HStr "A.view_A"; HStr "A.add_A"; HStr "B.view_B"].
Proof. repeat split. Qed.

(* ================================================================== *)
(** * Further properties of the package *)

(** ** Helper lemmas *)

Lemma substring_0_full (t : string) :
  forall n, (String.length t <= n)%nat -> String.substring 0 n t = t.
Proof.
  induction t as [|c t IH]; intros [|n] H; simpl in *; try reflexivity; [lia|].
  f_equal. apply IH. lia.
Qed.

Lemma bearer_header_token (t : string) :
  startswith ("Bearer " ++ t) "Bearer " = true /\
  String.substring 7 (String.length ("Bearer " ++ t)) ("Bearer " ++ t) = t.
Proof. split; [simpl; destruct t; reflexivity|]. simpl. apply substring_0_full. lia. Qed.

Lemma truthy_JStr (t : string) : t <> "" -> truthy (JStr t) = true.
Proof. intro H. simpl. destruct (String.eqb_spec t ""); [contradiction | reflexivity]. Qed.

Lemma assoc_remove_key (k k' : string) (kv : list (string * pyobj)) :
  assoc k (remove_key k' kv) = if String.eqb k k' then None else assoc k kv.
Proof.
  induction kv as [|[k0 v] kv IH]; simpl.
  - destruct (String.eqb k k'); reflexivity.
  - destruct (String.eqb_spec k' k0) as [->|Hne]; simpl.
    + rewrite IH. destruct (String.eqb_spec k k0); reflexivity.
    + rewrite IH. destruct (String.eqb_spec k k0) as [->|]; [|reflexivity].
      destruct (String.eqb_spec k0 k'); [congruence | reflexivity].
Qed.

Lemma fold_set_add_map {B} (f : B -> hval) (l : list B) :
  forall acc, fold_left (fun acc y => set_add (f y) acc) l acc = add_each (map f l) acc.
Proof. induction l as [|y l IH]; intro acc; simpl; [reflexivity | apply IH]. Qed.

Lemma add_all_child_permissions_each cfg acc :
  add_all_child_permissions cfg acc =
  add_each (flat_map (fun m => map (fun t => HStr (format_permission cfg m t))
                                   (map snd (get_child_permission_types cfg)))
                     (get_child_modules cfg)) acc.
Proof.
  unfold add_all_child_permissions. generalize acc.
  induction (get_child_modules cfg) as [|m mods IH]; intro a; simpl; [reflexivity|].
  unfold add_each in *. rewrite fold_left_app, <- IH. f_equal.
  apply (fold_set_add_map (fun t => HStr (format_permission cfg m t))).
Qed.

Lemma add_child_view_permissions_each cfg v acc :
  add_child_view_permissions cfg v acc =
  add_each (map (fun m => HStr (format_permission cfg m v)) (get_child_modules cfg)) acc.
Proof. apply (fold_set_add_map (fun m => HStr (format_permission cfg m v))). Qed.

Lemma set_update_nil_In ps x : In x (set_update [] ps) <-> In x ps.
Proof. unfold set_update. fold (add_each ps []). rewrite add_each_In. simpl. tauto. Qed.

Lemma set_update_nil_NoDup ps : NoDup (set_update [] ps).
Proof. unfold set_update. fold (add_each ps []). apply add_each_NoDup. constructor. Qed.

(** [check_permission] as written, for an authenticated non-superuser. *)
Lemma check_permission_src_non_superuser cfg ep u module perms st :
  u_is_authenticated u = true -> truthy (u_is_superuser u) = false ->
  check_permission_src cfg ep (Some u) module perms st = (Ok false, st).
Proof.
  intros Ha Hs. unfold check_permission_src, check_permission. rewrite Ha, Hs. simpl.
  destruct st as [[kv|] calls]; reflexivity.
Qed.

Lemma required_loop_tuples cfg s module actions :
  required_loop cfg (get_parent_module cfg) s (map (PSTuple module) actions) =
  if forallb (fun a => set_mem (HStr (format_permission cfg module a)) s) actions
  then ViewCalled else Forbidden403.
Proof.
  induction actions as [|a actions IH]; cbn [map required_loop forallb]; [reflexivity|].
  assert (E : (if String.eqb module (get_parent_module cfg) then a
               else format_permission cfg module a) = format_permission cfg module a).
  { unfold format_permission. destruct (String.eqb module (get_parent_module cfg)); reflexivity. }
  rewrite E. destruct (set_mem _ s); [exact IH | reflexivity].
Qed.

Lemma split_dot_cons (r : string) : exists p ps, split_dot r = p :: ps.
Proof.
  induction r as [|c r [p [ps IH]]]; simpl; [eauto|].
  rewrite IH. destruct (Ascii.eqb c "."%char); eauto.
Qed.

Lemma split_dot_app (s r : string) :
  str_contains s "." = false ->
  split_dot (s ++ r) = match split_dot r with
                       | p :: ps => (s ++ p) :: ps
                       | [] => [s]
                       end.
Proof.
  destruct (split_dot_cons r) as [p0 [ps0 Hr]].
  induction s as [|c s IH]; intro H; simpl.
  - rewrite Hr. reflexivity.
  - simpl in H. apply orb_false_iff in H as [Hc Hs].
    destruct (Ascii.eqb_spec c "."%char) as [->|Hne]; [simpl in Hc; destruct s; discriminate Hc|].
    rewrite (IH Hs), Hr. reflexivity.
Qed.

Lemma string_append_empty_r (s : string) : (s ++ "")%string = s.
Proof. induction s as [|c s IH]; simpl; [reflexivity | now rewrite IH]. Qed.

Lemma split_dot_pair (m c : string) :
  str_contains m "." = false -> str_contains c "." = false ->
  split_dot (m ++ "." ++ c) = [m; c].
Proof.
  intros Hm Hc. rewrite (split_dot_app m _ Hm). simpl.
  pose proof (split_dot_app c "" Hc) as H. simpl in H.
  rewrite string_append_empty_r in H. rewrite H, !string_append_empty_r. reflexivity.
Qed.

Lemma existsb_keys (m : string) (kvs : list (string * json)) :
  existsb (fun j => json_eq_str j m) (map (fun kv => JStr (fst kv)) kvs) =
  match assoc m kvs with Some _ => true | None => false end.
Proof.
  induction kvs as [|[k v] kvs IH]; simpl; [reflexivity|].
  rewrite IH. destruct (String.eqb_spec k m) as [H1|H1]; destruct (String.eqb_spec m k) as [H2|H2];
    simpl; congruence.
Qed.

Lemma dict_get_obj (kvs : list (string * json)) k d :
  dict_get (JObj kvs) k d = Ok (match assoc k kvs with Some v => v | None => d end).
Proof. simpl. destruct (assoc k kvs); reflexivity. Qed.

Lemma py_or_Ok (a b : json) :
  py_or a (fun _ => Ok b) = Ok (if truthy a then a else b).
Proof. unfold py_or. destruct (truthy a); reflexivity. Qed.

(** ** Token extraction and the authentication backend *)

(** X1: a header ["Bearer " ++ t] decides the token whatever the cookies
    hold: it is [t] with the surrounding whitespace stripped (possibly
    empty). *)
Theorem get_token_from_request_bearer :
  forall req t,
    assoc "Authorization" (r_headers req) = Some ("Bearer " ++ t) ->
    _get_token_from_request req = JStr (strip t).
Proof.
  intros req t H. unfold _get_token_from_request. rewrite H.
  destruct (bearer_header_token t) as [H1 H2]. rewrite H1, H2. reflexivity.
Qed.

Lemma get_token_from_request_bearer_witness :
  _get_token_from_request (header_request None "Bearer  abc  " [("auth_access_token", JStr "ck")])
    = JStr "abc".
Proof.
  exact (get_token_from_request_bearer
           (header_request None "Bearer  abc  " [("auth_access_token", JStr "ck")]) " abc  " eq_refl).
Defined.

(** X2: when no token is found, [authenticate] returns [None] (the request
    stays anonymous) without reading a cache or calling the service. This
    includes a ["Bearer "] header with a blank remainder, which hides a
    token held in the [auth_access_token] cookie. *)
Theorem authenticate_without_token :
  forall verify treader pep preader req st,
    truthy (_get_token_from_request req) = false ->
    authenticate verify treader pep preader req st = (Ok AuthAnonymous, st).
Proof.
  intros verify treader pep preader req st H.
  unfold authenticate, try_except. cbv zeta. rewrite H. reflexivity.
Qed.

Lemma authenticate_without_token_witness :
  authenticate_src verify_ok permissions_ok
    (header_request None "Bearer   " [("auth_access_token", JStr "valid-token")]) empty_state
  = (Ok AuthAnonymous, empty_state).
Proof. apply authenticate_without_token. reflexivity. Defined.

(** X3: as written, [authenticate] turns every request that carries a
    token into [AuthenticationFailed] with its generic message: the
    token-cache read raises [NameError] (the unbound [settings] of
    [cache.py]), which only the [except Exception] branch catches. It never
    authenticates a user and never calls the service. *)
Theorem authenticate_src_fails_with_token :
  forall verify pep req st,
    truthy (_get_token_from_request req) = true ->
    authenticate_src verify pep req st = (Ok AuthFailedUnexpected, st).
Proof.
  intros verify pep req st H.
  unfold authenticate_src, authenticate, try_except. cbv zeta. rewrite H.
  destruct st as [[kv|] calls]; reflexivity.
Qed.

Lemma authenticate_src_fails_with_token_witness :
  authenticate_src verify_ok permissions_ok (header_request None "Bearer t" []) empty_state
  = (Ok AuthFailedUnexpected, empty_state).
Proof. apply authenticate_src_fails_with_token. reflexivity. Defined.

(** X4: past a token-cache miss, a 401 answer with [code] ["token_expired"]
    makes [authenticate] raise [AuthenticationFailed] from the
    [except TokenError] branch with the [TokenExpiredError] (its subclass)
    as detail, any other code with the [TokenError]; the one verify call is
    the only effect. *)
Theorem authenticate_expired_token :
  forall verify treader pep preader req st o st' body code,
    truthy (_get_token_from_request req) = true ->
    treader (py_str (_get_token_from_request req)) st = (Ok o, st') -> truthy_obj o = false ->
    verify (py_str (_get_token_from_request req)) = Response 401 (Some body) ->
    dict_get body "code" JNull = Ok code ->
    authenticate verify treader pep preader req st =
      (Ok (AuthFailedToken (if json_eq_str code "token_expired" then TokenExpiredError
                            else TokenError)),
       {| st_cache := st_cache st';
          st_calls := st_calls st' ++ [CallVerify (py_str (_get_token_from_request req))] |}).
Proof.
  intros verify treader pep preader req st o st' body code Ht Hr Ho Hv Hc.
  unfold authenticate, try_except. cbv zeta. rewrite Ht.
  unfold bind at 1. unfold _get_user_from_token. unfold bind at 1.
  cbv beta iota zeta delta [negb]. rewrite Hr, Ho.
  unfold try_except, perform, bind, record_call. rewrite Hv. simpl.
  rewrite Hc. unfold lift. cbv beta iota.
  destruct (json_eq_str code "token_expired"); reflexivity.
Qed.

Lemma authenticate_expired_token_witness :
  authenticate (verify_401 (JStr "token_expired")) missing_reader permissions_ok missing_reader
    (header_request None "Bearer t" []) empty_state
  = (Ok (AuthFailedToken TokenExpiredError),
     {| st_cache := DjangoCache []; st_calls := [CallVerify "t"] |}).
Proof.
  exact (authenticate_expired_token (verify_401 (JStr "token_expired")) missing_reader permissions_ok
           missing_reader (header_request None "Bearer t" []) empty_state py_none empty_state
           (JObj [("code", JStr "token_expired")]) (JStr "token_expired")
           eq_refl eq_refl eq_refl eq_refl eq_refl).
Defined.

(** X5: past cache misses, a token the verify endpoint accepts (200) and a
    permissions endpoint answering 200 for the user's own token give
    [(user, None)] where [user] is [User(data)] with [set_permissions]
    applied to the permissions payload; the calls are the verify call then
    the permissions call, the token cache holds the user as verified and
    the permissions cache holds the payload. *)
Theorem authenticate_success_path :
  forall verify pep req t user_data u pd kv calls,
    _get_token_from_request req = JStr t -> t <> "" ->
    verify t = Response 200 (Some user_data) ->
    User_init user_data = Ok u -> truthy (u_id u) = true ->
    pep (py_str (u_token u)) (u_id u) = Response 200 (Some pd) ->
    let kv1 := (get_token_cache_key t, PUser u) :: remove_key (get_token_cache_key t) kv in
    authenticate verify missing_reader pep missing_reader req
      {| st_cache := DjangoCache kv; st_calls := calls |} =
    (Ok (AuthUser (PUser (set_permissions u (PJson pd)))),
     {| st_cache := DjangoCache ((get_permissions_cache_key (u_id u), PJson pd)
                                 :: remove_key (get_permissions_cache_key (u_id u)) kv1);
        st_calls := (calls ++ [CallVerify t]) ++ [CallPermissions (py_str (u_token u)) (u_id u)] |}).
Proof.
  intros verify pep req t user_data u pd kv calls Hreq Ht Hv Hu Hid Hp kv1.
  assert (Hobj : exists kvs, user_data = JObj kvs).
  { destruct user_data; try discriminate Hu. eauto. }
  destruct Hobj as [kvs ->].
  unfold authenticate, try_except. cbv zeta. rewrite Hreq, (truthy_JStr _ Ht).
  unfold _get_user_from_token, missing_reader.
  cbv beta iota zeta delta [negb py_str truthy_obj truthy py_none ret bind try_except perform
                            record_call lift response_json raise].
  rewrite Hv. change ((200 =? 200)%Z) with true.
  cbv beta iota zeta delta [ret bind lift response_json].
  rewrite dict_get_obj, Hu.
  cbv beta iota zeta delta [ret bind lift set_token_verification_cache try_except cache_set
                            timeout_or st_cache st_calls truthy_obj negb].
  unfold _load_user_permissions. rewrite Hid.
  cbv beta iota zeta delta [ret bind lift try_except perform record_call negb truthy_obj truthy
                            py_none st_cache st_calls].
  rewrite Hp. change ((200 =? 200)%Z) with true.
  reflexivity.
Qed.

Lemma authenticate_success_path_witness :
  exists u, User_init verify_ok_body = Ok u /\
    fst (authenticate verify_ok missing_reader permissions_ok missing_reader
           (header_request None "Bearer t" []) empty_state)
    = Ok (AuthUser (PUser (set_permissions u (PJson module_permissions_body)))) /\
    has_perm (set_permissions u (PJson module_permissions_body)) "A.view" = Ok true.
Proof.
  eexists. split; [reflexivity|]. split; [|reflexivity].
  unfold empty_state.
  rewrite (authenticate_success_path verify_ok permissions_ok (header_request None "Bearer t" [])
             "t" verify_ok_body _ module_permissions_body [] [] eq_refl ltac:(discriminate)
             eq_refl eq_refl eq_refl eq_refl).
  reflexivity.
Defined.

(** ** The permission gates *)

(** X6: as written, [check_permission] denies every authenticated
    non-superuser, for every module and permission argument (even an empty
    list): its permissions-cache read raises [NameError] inside its [try],
    and the [except] returns [False]. The state is left unchanged. *)
Theorem check_permission_src_denies_non_superusers :
  forall cfg ep u module perms st,
    u_is_authenticated u = true -> truthy (u_is_superuser u) = false ->
    check_permission_src cfg ep (Some u) module perms st = (Ok false, st).
Proof. intros. now apply check_permission_src_non_superuser. Qed.

Lemma check_permission_src_denies_non_superusers_witness :
  check_permission_src scenario_settings permissions_ok (Some (sample_user true false)) "A"
    (PermList []) empty_state = (Ok false, empty_state).
Proof. apply check_permission_src_denies_non_superusers; reflexivity. Defined.

(** X7: as written, [ModulePermissionRequiredMixin.check_permissions]
    admits an authenticated non-superuser exactly when the view's
    [required_permissions] is empty, with the state unchanged. *)
Theorem mixin_allows_only_without_requirements :
  forall cfg ep module required u st,
    u_is_authenticated u = true -> truthy (u_is_superuser u) = false ->
    mixin_check_permissions_src cfg ep module required (Some u) st =
      (Ok (match required with [] => true | _ => false end), st).
Proof.
  intros cfg ep module required u st Ha Hs.
  unfold mixin_check_permissions_src, mixin_check_permissions. rewrite Ha, Hs. simpl.
  destruct required as [|r rs]; [reflexivity|].
  exact (check_permission_src_non_superuser cfg ep u module (PermList (r :: rs)) st Ha Hs).
Qed.

Lemma mixin_allows_only_without_requirements_witness :
  mixin_check_permissions_src scenario_settings permissions_ok "A" ["view"]
    (Some (sample_user true false)) empty_state = (Ok false, empty_state) /\
  mixin_check_permissions_src scenario_settings permissions_ok "A" []
    (Some (sample_user true false)) empty_state = (Ok true, empty_state).
Proof.
  split; [apply (mixin_allows_only_without_requirements _ _ _ ["view"]) |
          apply (mixin_allows_only_without_requirements _ _ _ [])]; reflexivity.
Defined.

(** X8: the decorator [module_permission_required] lets a user whose
    [is_superuser] is truthy through without any other check (it never
    tests [is_authenticated]) and with the state unchanged; as written, for
    any other user with a truthy [id] it raises the [NameError] of the
    permissions-cache read out of the view instead of rendering the 403
    page. *)
Theorem decorator_superuser_or_name_error :
  forall cfg ep perms req u st,
    r_user req = Some u ->
    (truthy (u_is_superuser u) = true ->
     module_permission_required_src cfg ep perms req st = (Ok ViewCalled, st)) /\
    (truthy (u_is_superuser u) = false -> truthy (u_id u) = true ->
     module_permission_required_src cfg ep perms req st = (Exc NameError, st)).
Proof.
  intros cfg ep perms req u st Hu. unfold module_permission_required_src, module_permission_required.
  rewrite Hu. split.
  - intro Hs. rewrite Hs. reflexivity.
  - intros Hs Hid. rewrite Hs. unfold bind, _get_user_permissions. rewrite Hu, Hid.
    destruct st as [[kv|] calls]; reflexivity.
Qed.

Lemma decorator_superuser_or_name_error_witness :
  module_permission_required_src scenario_settings permissions_ok [PSTuple "A" "view"]
    (header_request (Some (sample_user false true)) "" []) empty_state = (Ok ViewCalled, empty_state) /\
  module_permission_required_src scenario_settings permissions_ok [PSTuple "A" "view"]
    (header_request (Some (sample_user true false)) "" []) empty_state = (Exc NameError, empty_state).
Proof.
  split.
  - apply (proj1 (decorator_superuser_or_name_error _ _ _
                    (header_request (Some (sample_user false true)) "" []) _ _ eq_refl)).
    reflexivity.
  - apply (proj2 (decorator_superuser_or_name_error _ _ _
                    (header_request (Some (sample_user true false)) "" []) _ _ eq_refl));
      reflexivity.
Defined.

(** X9: when the permissions are found in the cache, the decorator with
    the pairs [(module, a)] admits an authenticated non-superuser exactly
    when [check_permission(user, module, actions)] returns true: the
    decorator's use of the bare action for the parent module agrees with
    [format_permission]. *)
Theorem decorator_agrees_with_check_permission :
  forall cfg ep p req u module actions st,
    r_user req = Some u -> u_is_authenticated u = true ->
    truthy (u_is_superuser u) = false -> truthy (u_id u) = true ->
    let reader := fun _ : json => ret (PJson (payload_json p)) in
    fst (module_permission_required cfg ep reader (map (PSTuple module) actions) req st)
      = Ok ViewCalled <->
    fst (check_permission cfg ep reader (Some u) module (PermList actions) st) = Ok true.
Proof.
  intros cfg ep p req u module actions st Hr Ha Hs Hid reader.
  unfold module_permission_required, check_permission, _get_user_permissions.
  rewrite Hr, Ha, Hs, Hid. unfold reader.
  assert (Htp : truthy_obj (PJson (payload_json p)) = true) by reflexivity.
  cbv beta iota zeta delta [ret bind lift try_except collect_obj negb].
  rewrite Htp. cbv beta iota.
  destruct (_collect_module_permissions cfg (payload_json p)) as [s|e]; cbv beta iota.
  - rewrite required_loop_tuples, Htp. cbv beta iota. simpl fst.
    destruct (forallb _ actions); split; intro H; congruence.
  - rewrite ?Htp. cbv beta iota. simpl fst. split; intro H; discriminate H.
Qed.

Lemma decorator_agrees_with_check_permission_witness :
  fst (module_permission_required scenario_settings permissions_ok
         (fun _ => ret (PJson (payload_json sample_plain_payload)))
         (map (PSTuple "A") ["view_A"]) (header_request (Some (sample_user true false)) "" [])
         empty_state) = Ok ViewCalled <->
  fst (check_permission scenario_settings permissions_ok
         (fun _ => ret (PJson (payload_json sample_plain_payload)))
         (Some (sample_user true false)) "A" (PermList ["view_A"]) empty_state) = Ok true.
Proof.
  exact (decorator_agrees_with_check_permission scenario_settings permissions_ok sample_plain_payload
           (header_request (Some (sample_user true false)) "" []) (sample_user true false) "A"
           ["view_A"] empty_state eq_refl eq_refl eq_refl eq_refl).
Defined.

(** X10: past a permissions-cache miss, a user whose [token] attribute is a
    non-empty string has the permissions fetched with that token (whatever
    the headers and cookies hold), in exactly one call; a 200 answer is
    returned and written to the permissions cache under the user's key. *)
Theorem get_user_permissions_fetch_and_store :
  forall ep req u t pd kv calls,
    r_user req = Some u -> truthy (u_id u) = true -> u_token u = JStr t -> t <> "" ->
    ep t (u_id u) = Response 200 (Some pd) ->
    _get_user_permissions ep missing_reader req {| st_cache := DjangoCache kv; st_calls := calls |} =
    (Ok (PJson pd),
     {| st_cache := DjangoCache ((get_permissions_cache_key (u_id u), PJson pd)
                                 :: remove_key (get_permissions_cache_key (u_id u)) kv);
        st_calls := calls ++ [CallPermissions t (u_id u)] |}).
Proof.
  intros ep req u t pd kv calls Hr Hid Ht Hne Hep.
  unfold _get_user_permissions. rewrite Hr, Hid.
  unfold find_auth_token. rewrite Ht, (truthy_JStr _ Hne).
  unfold missing_reader.
  cbv beta iota zeta delta [negb py_str truthy_obj truthy py_none ret bind try_except perform
                            record_call lift response_json raise token_log st_cache st_calls].
  rewrite Hep. change ((200 =? 200)%Z) with true.
  apply String.eqb_neq in Hne. rewrite Hne. reflexivity.
Qed.

Lemma get_user_permissions_fetch_and_store_witness :
  _get_user_permissions permissions_ok missing_reader
    (header_request (Some token_user) "Bearer other" [("auth_access_token", JStr "ck")]) empty_state =
  (Ok (PJson module_permissions_body),
   {| st_cache := DjangoCache [("sso_permissions_1", PJson module_permissions_body)];
      st_calls := [CallPermissions "tk" (JNum 1)] |}).
Proof.
  exact (get_user_permissions_fetch_and_store permissions_ok
           (header_request (Some token_user) "Bearer other" [("auth_access_token", JStr "ck")])
           token_user "tk" module_permissions_body [] [] eq_refl eq_refl eq_refl
           ltac:(discriminate) eq_refl).
Defined.

(** X11: past a permissions-cache miss, [_get_user_permissions] fails
    closed: when the service is unreachable, answers a status other than
    200, or answers 200 with a body that is not JSON, it returns [None],
    leaves the cache as it was and makes at most one call. *)
Theorem get_user_permissions_fail_closed :
  forall ep req u st,
    r_user req = Some u -> truthy (u_id u) = true ->
    (forall status body, ep (py_str (find_auth_token u req)) (u_id u) = Response status body ->
                         status <> 200%Z \/ body = None) ->
    exists extra,
      _get_user_permissions ep missing_reader req st =
        (Ok py_none, {| st_cache := st_cache st; st_calls := st_calls st ++ extra |}) /\
      (List.length extra <= 1)%nat.
Proof.
  intros ep req u [c calls] Hr Hid Hep.
  unfold _get_user_permissions. rewrite Hr, Hid.
  set (tok := find_auth_token u req) in *.
  unfold missing_reader, ret, bind, try_except. simpl truthy_obj. simpl negb. cbv iota beta.
  destruct (truthy tok) eqn:Etk; simpl negb; cbv iota beta.
  - destruct (token_log tok) eqn:El; simpl.
    + unfold perform, bind, record_call. simpl.
      destruct (ep (py_str tok) (u_id u)) as [|status body] eqn:Ee; simpl.
      * exists [CallPermissions (py_str tok) (u_id u)]. split; [reflexivity | simpl; lia].
      * exists [CallPermissions (py_str tok) (u_id u)]. split; [|simpl; lia].
        destruct (Hep status body eq_refl) as [Hs|Hb].
        -- apply Z.eqb_neq in Hs. rewrite Hs. reflexivity.
        -- subst body. destruct (status =? 200)%Z; reflexivity.
    + exists []. rewrite app_nil_r. split; [reflexivity | simpl; lia].
  - exists []. rewrite app_nil_r. split; [reflexivity | simpl; lia].
Qed.

Lemma get_user_permissions_fail_closed_witness :
  exists extra,
    _get_user_permissions unreachable_permissions missing_reader
      (header_request (Some token_user) "" []) empty_state =
    (Ok py_none, {| st_cache := DjangoCache []; st_calls := [] ++ extra |}) /\
    (List.length extra <= 1)%nat.
Proof.
  apply (get_user_permissions_fail_closed unreachable_permissions
           (header_request (Some token_user) "" []) token_user empty_state eq_refl eq_refl).
  intros status body H. discriminate H.
Defined.



(** ** Aggregation paths *)

(** X13: for any permissions data whose parent entry (the first entry with
    the parent code) lists the configured manage-system codename, the
    effective set is that entry's codenames together with
    [format_permission(m, t)] for every configured child module [m] and
    permission type [t], without duplicates; the other entries are never
    read, whatever they hold. *)
Theorem manage_grant_ignores_entries :
  forall cfg data ps,
    _get_parent_module_permissions cfg data = Ok ps ->
    In (HStr (sget (get_parent_permissions cfg) "MANAGE_SYSTEM" "manage_default_system")) ps ->
    exists s,
      _collect_module_permissions cfg data = Ok s /\ NoDup s /\
      forall x, In x s <-> In x ps \/
                exists m t, In m (get_child_modules cfg) /\
                            In t (map snd (get_child_permission_types cfg)) /\
                            x = HStr (format_permission cfg m t).
Proof.
  intros cfg data ps Hps Hin.
  exists (add_all_child_permissions cfg (set_update [] ps)).
  unfold _collect_module_permissions. rewrite Hps. cbn [rbind].
  apply set_mem_spec in Hin. rewrite Hin.
  split; [reflexivity|]. rewrite add_all_child_permissions_each. split.
  - apply add_each_NoDup, set_update_nil_NoDup.
  - intro x. rewrite add_each_In, set_update_nil_In, in_flat_map. split.
    + intros [H|[m [Hm Hx]]]; [now left|right].
      apply in_map_iff in Hx as [t [<- Ht]]. eauto.
    + intros [H|[m [t [Hm [Ht ->]]]]]; [now left|right].
      exists m. split; [exact Hm|]. apply in_map_iff. eauto.
Qed.

Lemma manage_grant_ignores_entries_witness :
  exists s,
    _collect_module_permissions scenario_settings
      (JObj [("permissions", JArr [entry_json {| me_code := "SYS"; me_codenames := ["manage_default_system"] |};
                                   JNum 0])]) = Ok s /\ NoDup s /\
    (forall x, In x s <-> In x [HStr "manage_default_system"] \/
               exists m t, In m (get_child_modules scenario_settings) /\
                           In t (map snd (get_child_permission_types scenario_settings)) /\
                           x = HStr (format_permission scenario_settings m t)).
Proof. apply manage_grant_ignores_entries; simpl; auto. Defined.

(** X14: for a well-formed payload whose parent entry lists the
    view-system codename but not the manage-system one, the effective set
    is exactly the parent entry's codenames, [format_permission(m, view)]
    for every configured child module [m], and ["m.c"] for the codenames
    of the other entries; it has no duplicates. *)
Theorem view_grant_adds_child_views :
  forall cfg p,
    let pm := get_parent_module cfg in
    let pp := first_parent_codenames pm p in
    let view := sget (get_child_permission_types cfg) "VIEW" "view" in
    ~ In (sget (get_parent_permissions cfg) "MANAGE_SYSTEM" "manage_default_system") pp ->
    In (sget (get_parent_permissions cfg) "VIEW_SYSTEM" "view_default_system") pp ->
    exists s,
      _collect_module_permissions cfg (payload_json p) = Ok s /\ NoDup s /\
      forall x, In x s <-> In x (map HStr (pp ++ map (fun m => format_permission cfg m view)
                                                        (get_child_modules cfg)
                                            ++ child_strings pm p)).
Proof.
  intros cfg p pm pp view Hman Hview.
  set (ps := add_each (map HStr pp) []).
  assert (Hps : forall x, In x ps <-> In x (map HStr pp)).
  { intro x. unfold ps. rewrite add_each_In. simpl. tauto. }
  assert (Hnot : set_mem (HStr (sget (get_parent_permissions cfg) "MANAGE_SYSTEM"
                                     "manage_default_system")) ps = false).
  { destruct (set_mem _ ps) eqn:E; [|reflexivity].
    apply set_mem_spec, Hps, in_map_iff in E as [b [Hb Hin]]. injection Hb as ->. contradiction. }
  assert (Hyes : set_mem (HStr (sget (get_parent_permissions cfg) "VIEW_SYSTEM"
                                     "view_default_system")) ps = true).
  { apply set_mem_spec, Hps, in_map. exact Hview. }
  eexists. unfold _collect_module_permissions. rewrite get_parent_payload. fold pm pp ps.
  cbn [rbind]. rewrite Hnot, Hyes. simpl (dict_get _ _ _). cbn [rbind py_iter].
  rewrite child_loop_payload. split; [reflexivity|].
  rewrite add_child_view_permissions_each. fold view. split.
  - apply add_each_NoDup, add_each_NoDup, set_update_nil_NoDup.
  - intro x. rewrite !add_each_In, set_update_nil_In, Hps, !map_app, !in_app_iff, map_map.
    tauto.
Qed.

Lemma view_grant_adds_child_views_witness :
  exists s,
    _collect_module_permissions scenario_settings
      (payload_json [{| me_code := "SYS"; me_codenames := ["view_default_system"] |};
                     {| me_code := "A"; me_codenames := ["add_A"] |}]) = Ok s /\ NoDup s /\
    (forall x, In x s <-> In x [HStr "view_default_system"; HStr "A.view_A"; HStr "B.view_B";
                                HStr "A.add_A"]).
Proof.
  destruct (view_grant_adds_child_views scenario_settings
              [{| me_code := "SYS"; me_codenames := ["view_default_system"] |};
               {| me_code := "A"; me_codenames := ["add_A"] |}]) as [s [H1 [H2 H3]]].
  - simpl. intuition discriminate.
  - simpl. auto.
  - exists s. split; [exact H1|]. split; [exact H2|]. exact H3.
Defined.

(** ** The [User] model *)

(** X15: [User.has_perm] grants every permission string to a user whose
    [is_superuser] is truthy; for any other user a string without exactly
    one ['.'] is refused, and a well-formed one raises [AttributeError]
    when the [permissions] attribute is not a dict. *)
Theorem has_perm_superuser_and_format :
  forall u perm,
    (truthy (u_is_superuser u) = true -> has_perm u perm = Ok true) /\
    (truthy (u_is_superuser u) = false -> List.length (split_dot perm) <> 2%nat ->
     has_perm u perm = Ok false) /\
    (truthy (u_is_superuser u) = false -> List.length (split_dot perm) = 2%nat ->
     (forall kvs, u_permissions u <> JObj kvs) -> has_perm u perm = Exc AttributeError).
Proof.
  intros u perm. unfold has_perm. split; [|split].
  - intro H. rewrite H. reflexivity.
  - intros H Hl. rewrite H.
    destruct (split_dot perm) as [|a [|b [|c r]]]; simpl in Hl; try reflexivity; lia.
  - intros H Hl Hd. rewrite H.
    destruct (split_dot perm) as [|a [|b [|c r]]]; simpl in Hl; try lia.
    destruct (u_permissions u) eqn:E; try reflexivity. exfalso. now apply (Hd kvs).
Qed.

Lemma has_perm_superuser_and_format_witness :
  has_perm (sample_user true true) "anything" = Ok true /\
  has_perm (sample_user true false) "A.view.extra" = Ok false /\
  has_perm (with_permissions (sample_user true false) (JArr []) (JArr [])) "A.view"
    = Exc AttributeError.
Proof.
  split; [|split].
  - exact (proj1 (has_perm_superuser_and_format (sample_user true true) "anything") eq_refl).
  - exact (proj1 (proj2 (has_perm_superuser_and_format (sample_user true false) "A.view.extra"))
             eq_refl ltac:(discriminate)).
  - exact (proj2 (proj2 (has_perm_superuser_and_format
                           (with_permissions (sample_user true false) (JArr []) (JArr [])) "A.view"))
             eq_refl eq_refl ltac:(discriminate)).
Defined.

(** X16: after [set_permissions(d)] with a non-empty dict [d], a
    non-superuser has access to exactly the modules that are keys of [d],
    and has the permission ["m.c"] (neither part containing ['.'])
    exactly when [c] is in the ['permissions'] list of [d[m]]. *)
Theorem set_permissions_then_checks :
  forall u kvs,
    truthy (u_is_superuser u) = false -> kvs <> [] ->
    let u' := set_permissions u (PJson (JObj kvs)) in
    (forall m, has_module_perms u' m = Ok (match assoc m kvs with Some _ => true | None => false end)) /\
    (forall m c mk l,
       str_contains m "." = false -> str_contains c "." = false ->
       assoc m kvs = Some (JObj mk) -> assoc "permissions" mk = Some (JArr l) ->
       has_perm u' (m ++ "." ++ c) = Ok (existsb (fun j => json_eq_str j c) l)).
Proof.
  intros u kvs Hs Hne u'.
  assert (Hu' : u' = with_permissions u (JObj kvs) (JArr (map (fun kv => JStr (fst kv)) kvs))).
  { unfold u', set_permissions. destruct kvs; [contradiction | reflexivity]. }
  split.
  - intro m. rewrite Hu'. unfold has_module_perms. simpl. rewrite Hs. simpl.
    rewrite existsb_keys. reflexivity.
  - intros m c mk l Hm Hc Hmk Hl. rewrite Hu'. unfold has_perm.
    change (truthy (u_is_superuser (with_permissions u ?a ?b))) with (truthy (u_is_superuser u)).
    rewrite Hs, (split_dot_pair m c Hm Hc). simpl. rewrite Hmk. simpl. rewrite Hl. reflexivity.
Qed.

Lemma set_permissions_then_checks_witness :
  has_module_perms (set_permissions (sample_user true false) (PJson module_permissions_body)) "A"
    = Ok true /\
  has_perm (set_permissions (sample_user true false) (PJson module_permissions_body)) ("A" ++ "." ++ "view")
    = Ok true.
Proof.
  destruct (set_permissions_then_checks (sample_user true false)
              [("A", JObj [("permissions", JArr [JStr "view"])])] eq_refl ltac:(discriminate))
    as [H1 H2].
  split; [exact (H1 "A")|].
  exact (H2 "A" "view" [("permissions", JArr [JStr "view"])] [JStr "view"]
            eq_refl eq_refl eq_refl eq_refl).
Defined.

(** ** The cache facade *)




(** X19: [set_token_verification_cache(t, user)] on Django's cache returns
    [True] and makes the entry of [t] hold [user], every other entry
    unchanged; a later [invalidate_token_cache(t)] removes that entry and
    leaves the others as they were before the write. On the [MockCache]
    the write returns [True] and stores nothing. *)
Theorem token_cache_write_then_invalidate :
  forall t user timeout kv calls,
    exists kv',
      set_token_verification_cache t user timeout {| st_cache := DjangoCache kv; st_calls := calls |}
        = (Ok true, {| st_cache := DjangoCache kv'; st_calls := calls |}) /\
      assoc (get_token_cache_key t) kv' = Some (PUser user) /\
      (forall k, k <> get_token_cache_key t -> assoc k kv' = assoc k kv) /\
      (exists kv'',
         invalidate_token_cache t {| st_cache := DjangoCache kv'; st_calls := calls |}
           = (Ok tt, {| st_cache := DjangoCache kv''; st_calls := calls |}) /\
         assoc (get_token_cache_key t) kv'' = None /\
         (forall k, k <> get_token_cache_key t -> assoc k kv'' = assoc k kv)) /\
      set_token_verification_cache t user timeout {| st_cache := MockCache; st_calls := calls |}
        = (Ok true, {| st_cache := MockCache; st_calls := calls |}).
Proof.
  intros t user timeout kv calls.
  set (key := get_token_cache_key t).
  exists ((key, PUser user) :: remove_key key kv). split; [reflexivity|].
  split; [cbn [assoc]; now rewrite String.eqb_refl|]. split; [|split].
  - intros k Hk. cbn [assoc]. rewrite assoc_remove_key.
    apply String.eqb_neq in Hk. now rewrite Hk.
  - eexists. split; [reflexivity|]. split.
    + rewrite assoc_remove_key. fold key. now rewrite String.eqb_refl.
    + intros k Hk. rewrite assoc_remove_key. fold key. apply String.eqb_neq in Hk. rewrite Hk.
      cbn [assoc]. rewrite Hk, assoc_remove_key, Hk. reflexivity.
  - reflexivity.
Qed.

Lemma token_cache_write_then_invalidate_witness :
  exists kv',
    set_token_verification_cache "t" token_user None
      {| st_cache := DjangoCache [("other", py_none)]; st_calls := [] |}
      = (Ok true, {| st_cache := DjangoCache kv'; st_calls := [] |}) /\
    assoc (get_token_cache_key "t") kv' = Some (PUser token_user) /\
    assoc "other" kv' = Some py_none.
Proof.
  destruct (token_cache_write_then_invalidate "t" token_user None [("other", py_none)] [])
    as [kv' [H1 [H2 [H3 _]]]].
  exists kv'. split; [exact H1 | split; [exact H2|]].
  apply H3. intro E. vm_compute in E. discriminate E.
Defined.

(** X20: [cache_user_data] builds [request.user_data] once per user id: on
    a miss it stores [{'permissions': ..., 'profile': ...}] of the
    authenticated user, and a later request of any authenticated user
    object with the same id gets that stored value back, even if its
    attributes changed, with the cache untouched. *)
Theorem cache_user_data_reuses_snapshot :
  forall timeout u v kv calls,
    u_is_authenticated u = true -> u_is_authenticated v = true -> u_id v = u_id u ->
    assoc (get_user_cache_key (u_id u)) kv = None ->
    let key := get_user_cache_key (u_id u) in
    let d := PJson (JObj [("permissions", get_all_permissions u); ("profile", get_profile u)]) in
    let st1 := {| st_cache := DjangoCache ((key, d) :: remove_key key kv); st_calls := calls |} in
    cache_user_data timeout (Some u) {| st_cache := DjangoCache kv; st_calls := calls |}
      = (Ok (Some d), st1) /\
    cache_user_data timeout (Some v) st1 = (Ok (Some d), st1).
Proof.
  intros timeout u v kv calls Hu Hv Hid Hmiss key d st1. subst key d st1. split.
  - unfold cache_user_data, cache_get. rewrite Hu.
    cbn -[get_user_cache_key get_all_permissions get_profile remove_key].
    rewrite Hmiss. reflexivity.
  - unfold cache_user_data, cache_get. rewrite Hv, Hid.
    cbn -[get_user_cache_key get_all_permissions get_profile remove_key].
    rewrite String.eqb_refl. reflexivity.
Qed.

Lemma cache_user_data_reuses_snapshot_witness :
  cache_user_data None (Some token_user)
    {| st_cache := DjangoCache [("sso_user_1", PJson (JObj [("permissions", JObj []);
                                                             ("profile", get_profile (sample_user true false))]))];
       st_calls := [] |}
  = (Ok (Some (PJson (JObj [("permissions", JObj []); ("profile", get_profile (sample_user true false))]))),
     {| st_cache := DjangoCache [("sso_user_1", PJson (JObj [("permissions", JObj []);
                                                             ("profile", get_profile (sample_user true false))]))];
        st_calls := [] |}).
Proof.
  exact (proj2 (cache_user_data_reuses_snapshot None (sample_user true false) token_user [] []
                  eq_refl eq_refl eq_refl eq_refl)).
Defined.

(** ** Exceptions *)

(** X21: [TokenExpiredError()] carries the message and code configured for
    [TOKEN_EXPIRED] (by default 'Authentication token expired' and
    'token_expired'), never those of [TOKEN_INVALID], as long as they are
    non-empty; a configured empty message is replaced by the
    [TOKEN_INVALID] message, because [TokenError.__init__] applies its own
    [or] default again. A non-empty explicit message is kept. *)
Theorem token_expired_error_message :
  forall er,
    let em := sget (error_config er "TOKEN_EXPIRED") "message" "Authentication token expired" in
    let ec := sget (error_config er "TOKEN_EXPIRED") "code" "token_expired" in
    let im := sget (error_config er "TOKEN_INVALID") "message" "Invalid authentication token" in
    (em <> "" -> err_message (TokenExpiredError_init er None None) = em) /\
    (ec <> "" -> err_code (TokenExpiredError_init er None None) = ec) /\
    (em = "" -> err_message (TokenExpiredError_init er None None) = im) /\
    (forall m c, m <> "" -> err_message (TokenExpiredError_init er (Some m) c) = m).
Proof.
  intros er em ec im.
  unfold TokenExpiredError_init, TokenError_init, SSOAuthenticationError_init. cbn [err_message err_code].
  fold em ec im. unfold str_or. split; [|split; [|split]].
  - intro H. apply String.eqb_neq in H. repeat (rewrite H; cbv beta iota). reflexivity.
  - intro H. apply String.eqb_neq in H. repeat (rewrite H; cbv beta iota). reflexivity.
  - intro H. rewrite H. reflexivity.
  - intros m c H. apply String.eqb_neq in H. repeat (rewrite H; cbv beta iota). reflexivity.
Qed.

Lemma token_expired_error_message_witness :
  err_message (TokenExpiredError_init [] None None) = "Authentication token expired" /\
  err_code (TokenExpiredError_init [] None None) = "token_expired" /\
  err_message (TokenExpiredError_init [("TOKEN_EXPIRED", [("message", "")])] None None)
    = "Invalid authentication token".
Proof.
  split; [|split].
  - exact (proj1 (token_expired_error_message []) ltac:(discriminate)).
  - exact (proj1 (proj2 (token_expired_error_message [])) ltac:(discriminate)).
  - exact (proj1 (proj2 (proj2 (token_expired_error_message [("TOKEN_EXPIRED", [("message", "")])])))
             eq_refl).
Defined.

(** ** Building a [User] *)

Lemma dict_get_not_obj (d : json) k dflt :
  (forall kvs, d <> JObj kvs) -> dict_get d k dflt = Exc AttributeError.
Proof. intro H. destruct d; try reflexivity. exfalso. exact (H _ eq_refl). Qed.

Lemma py_or_Exc (a : json) (e : exn) :
  py_or a (fun _ => Exc e) = if truthy a then Ok a else Exc e.
Proof. reflexivity. Qed.

(** X22: [User(user_data)] succeeds exactly when [user_data] is a dict
    whose ['profile'] entry is falsy or itself a dict; the built user then
    keeps that profile, or [{}] for a falsy one. For any other input it
    raises [AttributeError]: a non-dict has no [.get], and a truthy
    non-dict profile fails at the unconditional
    [profile_data.get('staff_number', '')], whatever top-level fields
    spare the earlier [or] fallbacks. *)
Theorem User_init_outcome :
  (forall user_data, (forall kvs, user_data <> JObj kvs) ->
     User_init user_data = Exc AttributeError) /\
  (forall kvs,
     let p := match assoc "profile" kvs with Some v => v | None => JNull end in
     truthy p = true -> (forall pk, p <> JObj pk) ->
     User_init (JObj kvs) = Exc AttributeError) /\
  (forall kvs,
     let p := match assoc "profile" kvs with Some v => v | None => JNull end in
     (truthy p = false \/ exists pk, p = JObj pk) ->
     exists u, User_init (JObj kvs) = Ok u /\
               u_profile u = (if truthy p then p else JObj []) /\
               u_is_authenticated u = true).
Proof.
  split; [|split].
  - intros user_data H. unfold User_init. rewrite (dict_get_not_obj _ _ _ H). reflexivity.
  - intros kvs p Ht Hnot. unfold User_init. rewrite dict_get_obj. cbn [rbind].
    fold p. rewrite Ht.
    repeat first
      [ rewrite dict_get_obj
      | rewrite (dict_get_not_obj p _ _ Hnot)
      | rewrite py_or_Exc
      | progress cbn [rbind]
      | match goal with |- context [if truthy ?x then _ else _] => destruct (truthy x) end ].
    all: reflexivity.
  - intros kvs p Hp. unfold User_init. rewrite dict_get_obj. cbn [rbind]. fold p.
    assert (Hpd : exists pk, (if truthy p then p else JObj []) = JObj pk).
    { destruct Hp as [Hf | [pk Hpk]].
      - rewrite Hf. eauto.
      - rewrite Hpk. destruct (truthy (JObj pk)); eauto. }
    destruct Hpd as [pk Hpk]. rewrite Hpk.
    repeat first
      [ rewrite dict_get_obj
      | rewrite py_or_Ok
      | progress cbn [rbind] ].
    eexists. split; [reflexivity|]. cbn [u_profile u_is_authenticated]. auto.
Qed.

Lemma User_init_outcome_witness :
  User_init (JArr []) = Exc AttributeError /\
  User_init (JObj [("username", JStr "bob"); ("email", JStr "b@x"); ("profile", JStr "p")])
    = Exc AttributeError /\
  (exists u, User_init (JObj [("username", JStr "bob");
                               ("profile", JObj [("staff_number", JStr "S1")])]) = Ok u /\
             u_profile u = JObj [("staff_number", JStr "S1")] /\
             u_is_authenticated u = true).
Proof.
  split; [|split].
  - apply (proj1 User_init_outcome). discriminate.
  - apply (proj1 (proj2 User_init_outcome)
             [("username", JStr "bob"); ("email", JStr "b@x"); ("profile", JStr "p")]).
    + reflexivity.
    + discriminate.
  - exact (proj2 (proj2 User_init_outcome)
             [("username", JStr "bob"); ("profile", JObj [("staff_number", JStr "S1")])]
             (or_intror (ex_intro _ _ eq_refl))).
Defined.

(** ** Token extraction, continued *)

Lemma lstrip_idem (s : string) : lstrip (lstrip s) = lstrip s.
Proof.
  induction s as [|c r IH]; [reflexivity|].
  cbn [lstrip]. destruct (py_isspace c) eqn:E; [exact IH|].
  cbn [lstrip]. rewrite E. reflexivity.
Qed.

Lemma rstrip_idem (s : string) : rstrip (rstrip s) = rstrip s.
Proof.
  induction s as [|c r IH]; [reflexivity|].
  cbn [rstrip].
  destruct (String.eqb (rstrip r) "" && py_isspace c) eqn:E; [reflexivity|].
  cbn [rstrip]. rewrite IH, E. reflexivity.
Qed.

(** [rstrip] keeps the first character of a string that does not start
    with whitespace, so [lstrip] has nothing to remove afterwards. *)
Lemma lstrip_rstrip_fixed (s : string) : lstrip s = s -> lstrip (rstrip s) = rstrip s.
Proof.
  destruct s as [|c r]; [reflexivity|]. cbn [lstrip]. intro H.
  destruct (py_isspace c) eqn:E.
  - exfalso. assert (Hl : String.length (lstrip r) <= String.length r).
    { clear. induction r as [|c' r' IH']; cbn [lstrip]; [constructor|].
      destruct (py_isspace c'); cbn [String.length]; lia. }
    rewrite H in Hl. cbn [String.length] in Hl. lia.
  - cbn [rstrip]. destruct (String.eqb (rstrip r) "" && py_isspace c); [reflexivity|].
    cbn [lstrip]. rewrite E. reflexivity.
Qed.

Lemma strip_idem (s : string) : strip (strip s) = strip s.
Proof.
  unfold strip. rewrite lstrip_rstrip_fixed by apply lstrip_idem. apply rstrip_idem.
Qed.

(** X23: the token [_get_token_from_request] returns is falsy only as
    [None] or the empty string; a token taken from a ["Bearer "] header is
    a string that [.strip()] leaves unchanged, so no whitespace surrounds
    what is sent to the verify endpoint. *)
Theorem get_token_from_request_shape :
  forall req,
    let tok := _get_token_from_request req in
    (truthy tok = false -> tok = JNull \/ tok = JStr "") /\
    (forall h, assoc "Authorization" (r_headers req) = Some h -> startswith h "Bearer " = true ->
       exists t, tok = JStr t /\ strip t = t).
Proof.
  intros req tok. subst tok. split.
  - unfold _get_token_from_request.
    destruct (startswith _ "Bearer ").
    + intro H. right. cbn [truthy] in H. apply negb_false_iff, String.eqb_eq in H.
      rewrite H. reflexivity.
    + destruct (assoc "auth_access_token" (r_cookies req)) as [c|]; [|auto].
      destruct (truthy c) eqn:E; [|auto]. intro H. congruence.
  - intros h Hh Hs. unfold _get_token_from_request. rewrite Hh, Hs.
    eexists. split; [reflexivity|]. apply strip_idem.
Qed.

Lemma get_token_from_request_shape_witness :
  (_get_token_from_request (header_request None "Token x" [("auth_access_token", JStr "")])
     = JNull \/
   _get_token_from_request (header_request None "Token x" [("auth_access_token", JStr "")])
     = JStr "") /\
  (exists t, _get_token_from_request (header_request None "Bearer  abc " []) = JStr t /\
             strip t = t).
Proof.
  split.
  - apply (proj1 (get_token_from_request_shape
                    (header_request None "Token x" [("auth_access_token", JStr "")]))).
    vm_compute. reflexivity.
  - apply (proj2 (get_token_from_request_shape (header_request None "Bearer  abc " []))
             "Bearer  abc "); vm_compute; reflexivity.
Defined.

(** ** [User.set_permissions] *)

(** X24: [set_permissions] changes nothing unless it is given a non-empty
    dict (an empty dict, a list, [None], a [User] object: the logged
    [json.dumps] failure of the last is caught); with a non-empty dict it
    replaces exactly [permissions] and [modules], and applying it twice is
    the same as once. *)
Theorem set_permissions_guard_and_idempotent :
  forall u o,
    ((forall kvs, o = PJson (JObj kvs) -> kvs = []) -> set_permissions u o = u) /\
    set_permissions (set_permissions u o) o = set_permissions u o /\
    (forall kvs, o = PJson (JObj kvs) -> kvs <> [] ->
       set_permissions u o = with_permissions u (JObj kvs) (JArr (map (fun kv => JStr (fst kv)) kvs))).
Proof.
  intros u o. split; [|split].
  - intro H. destruct o as [j|v]; [|reflexivity].
    destruct j; try reflexivity. rewrite (H kvs eq_refl). reflexivity.
  - destruct o as [j|v]; [|reflexivity]. destruct j; try reflexivity.
    cbn [set_permissions]. destruct (truthy (JObj kvs)); reflexivity.
  - intros kvs -> Hne. cbn [set_permissions].
    destruct kvs; [contradiction|reflexivity].
Qed.

Lemma set_permissions_guard_and_idempotent_witness :
  set_permissions token_user (PJson (JObj [])) = token_user /\
  set_permissions token_user (PJson (JArr [JStr "A"])) = token_user /\
  set_permissions token_user (PJson module_permissions_body)
    = with_permissions token_user module_permissions_body (JArr [JStr "A"]).
Proof.
  split; [|split].
  - apply (proj1 (set_permissions_guard_and_idempotent token_user (PJson (JObj [])))).
    intros kvs E. injection E as <-. reflexivity.
  - apply (proj1 (set_permissions_guard_and_idempotent token_user (PJson (JArr [JStr "A"])))).
    discriminate.
  - exact (proj2 (proj2 (set_permissions_guard_and_idempotent token_user
                           (PJson module_permissions_body))) _ eq_refl ltac:(discriminate)).
Defined.
